(** * AlUla journey navigator: the admin dashboard and the tourist sign-up form

    A shallow embedding of the event handlers of [AdminView] (the admin
    dashboard component) and of [TouristPasswordLogin] (the tourist
    sign-in / sign-up form), together with the properties of the
    assignment reconciler, the tourist status derivation, guide request
    triage, guide creation and the two login paths.

    Conventions.
    - A JavaScript string is the list of its UTF-16 code units.
    - A row of a backend table, an insert or update payload and the body of
      a function call are JavaScript objects: finite maps from column names
      to values.
    - A handler is a function from the world before the click to the world
      after the handler has run to completion.  The world holds the backend
      tables, the component state and the trace of what the handler did
      (requests to the backend, toasts, console errors, fetchers started).
      What the backend answers to the one write a handler issues is an
      argument of the handler, and so is each reading of the clock.
    - Fetchers started without [await] are recorded in the trace; their
      effect belongs to a later turn of the event loop.
    - [console.error] and [console.warn] are in the trace, the
      [console.log] lines are not. *)

From stdpp Require Import gmap strings list.
From Stdlib Require Import ZArith Lia Ascii String.

Local Open Scope string_scope.
Local Open Scope list_scope.
Local Open Scope Z_scope.

(** ** JavaScript strings *)

Module Js.

(** A string value: its UTF-16 code units. *)
Abbreviation jsstring := (list N).

(** The code units of an ASCII literal of the source. *)
Fixpoint js (s : string) : jsstring :=
  match s with
  | EmptyString => []
  | String a s' => N_of_ascii a :: js s'
  end.

(** [!s] on a string: only the empty string is falsy. *)
Definition falsy (s : jsstring) : bool :=
  match s with [] => true | _ => false end.

Definition truthy (s : jsstring) : bool := negb (falsy s).

(** [a || b] on strings. *)
Definition or_else (a b : jsstring) : jsstring :=
  if truthy a then a else b.

(** [a === b] on strings. *)
Definition str_eqb (a b : jsstring) : bool := bool_decide (a = b).

(** ECMAScript WhiteSpace and LineTerminator code points: what
    [String.prototype.trim] strips and what [\s] matches. *)
Definition isWhiteSpace (c : N) : bool :=
  ((9 <=? c) && (c <=? 13) || (c =? 32) || (c =? 160) || (c =? 5760)
   || (8192 <=? c) && (c <=? 8202) || (c =? 8232) || (c =? 8233)
   || (c =? 8239) || (c =? 8287) || (c =? 12288) || (c =? 65279))%N.

Fixpoint trimStart (s : jsstring) : jsstring :=
  match s with
  | [] => []
  | c :: s' => if isWhiteSpace c then trimStart s' else s
  end.

Definition trimEnd (s : jsstring) : jsstring :=
  reverse (trimStart (reverse s)).

(** [s.trim()] *)
Definition trim (s : jsstring) : jsstring := trimEnd (trimStart s).

(** [s.split(sep)] for a separator of one code unit (the two separators of
    the source are [','] and ['T']).  The result is never empty. *)
Fixpoint split (sep : N) (s : jsstring) : list jsstring :=
  match s with
  | [] => [[]]
  | c :: s' =>
      if (c =? sep)%N then [] :: split sep s'
      else match split sep s' with
           | [] => [[c]]
           | x :: xs => (c :: x) :: xs
           end
  end.

(** [/\D/g] removed: the ASCII digits of a string. *)
Definition isDigit (c : N) : bool := ((48 <=? c) && (c <=? 57))%N.

Definition digitsOf (s : jsstring) : jsstring := filter (fun c => isDigit c = true) s.

(** *** Regular expressions

    Matching by derivatives, over classes of code units.  The source has no
    [u] flag, so a pattern sees code units. *)

Inductive regex : Type :=
| RVoid
| REps
| RClass (p : N -> bool)
| RCat (r1 r2 : regex)
| RAlt (r1 r2 : regex)
| RStar (r : regex).

Definition RPlus (r : regex) : regex := RCat r (RStar r).
Definition RChar (c : N) : regex := RClass (fun x => (x =? c)%N).

Fixpoint nullable (r : regex) : bool :=
  match r with
  | RVoid => false
  | REps => true
  | RClass _ => false
  | RCat r1 r2 => nullable r1 && nullable r2
  | RAlt r1 r2 => nullable r1 || nullable r2
  | RStar _ => true
  end.

Fixpoint deriv (c : N) (r : regex) : regex :=
  match r with
  | RVoid => RVoid
  | REps => RVoid
  | RClass p => if p c then REps else RVoid
  | RCat r1 r2 =>
      if nullable r1 then RAlt (RCat (deriv c r1) r2) (deriv c r2)
      else RCat (deriv c r1) r2
  | RAlt r1 r2 => RAlt (deriv c r1) (deriv c r2)
  | RStar r1 => RCat (deriv c r1) (RStar r1)
  end.

(** [/^r$/.test(s)] *)
Fixpoint test (r : regex) (s : jsstring) : bool :=
  match s with
  | [] => nullable r
  | c :: s' => test (deriv c r) s'
  end.

End Js.

Import Js.

(** ** Dates

    [new Date(t).toISOString()] for a time value [t] in milliseconds since
    the epoch, in UTC. *)

Module JsDate.

Definition msPerDay : Z := 86400000.

(** Day number and time within the day of a time value. *)
Definition Day (t : Z) : Z := t / msPerDay.
Definition TimeWithinDay (t : Z) : Z := t mod msPerDay.

(** Year, month (1..12) and day of the month (1..31) of a day number, in
    the proleptic Gregorian calendar; day 0 is 1970-01-01. *)
Definition civil (day : Z) : Z * Z * Z :=
  let z := day + 719468 in
  let era := z / 146097 in
  let doe := z - era * 146097 in
  let yoe := (doe - doe / 1460 + doe / 36524 - doe / 146096) / 365 in
  let doy := doe - (365 * yoe + yoe / 4 - yoe / 100) in
  let mp := (5 * doy + 2) / 153 in
  let d := doy - (153 * mp + 2) / 5 + 1 in
  let m := if mp <? 10 then mp + 3 else mp - 9 in
  let y := yoe + era * 400 in
  (if m <=? 2 then y + 1 else y, m, d).

(** The last [width] decimal digits of [n], zero padded. *)
Fixpoint digits (width : nat) (n : Z) : jsstring :=
  match width with
  | O => []
  | S k => digits k (n / 10) ++ [Z.to_N (48 + n mod 10)]
  end.

(** Years 0..9999 print with four digits, other years with a sign and six. *)
Definition yearString (y : Z) : jsstring :=
  if (0 <=? y) && (y <=? 9999) then digits 4 y
  else (if y <? 0 then js "-" else js "+") ++ digits 6 (Z.abs y).

Definition dateString (day : Z) : jsstring :=
  let '(y, m, d) := civil day in
  yearString y ++ js "-" ++ digits 2 m ++ js "-" ++ digits 2 d.

Definition timeString (ms : Z) : jsstring :=
  digits 2 (ms / 3600000) ++ js ":" ++ digits 2 (ms / 60000 mod 60) ++ js ":"
  ++ digits 2 (ms / 1000 mod 60) ++ js "." ++ digits 3 (ms mod 1000).

Definition toISOString (t : Z) : jsstring :=
  dateString (Day t) ++ js "T" ++ timeString (TimeWithinDay t) ++ js "Z".

(** A time value lies within 8.64e15 milliseconds of the epoch.  A reading
    of the clock ([new Date()], [Date.now()]) is one; [new Date(v)] of any
    other number [v] is an invalid date. *)
Definition maxTime : Z := 8640000000000000.

Definition validTime (v : Z) : bool := (- maxTime <=? v) && (v <=? maxTime).

(** [new Date(v).toISOString()]: the string, or nothing when the call
    throws its RangeError. *)
Definition dateToISOString (v : Z) : option jsstring :=
  if validTime v then Some (toISOString v) else None.

(** The message of that RangeError, in the words of V8. *)
Definition invalidTimeValue : jsstring := js "Invalid time value".

End JsDate.

Import JsDate.

(** ** The backend

    The hosted store as the handlers see it through the client: tables of
    rows, [insert], [update ... eq], [upsert] and the [in] filter of a
    select.  A write is answered by the backend, and the answer is given to
    the handler: accepted, with the columns the store fills in itself, or
    refused with an error message. *)

Module Backend.

Inductive value : Type :=
| VNull
| VStr (s : jsstring)
| VNum (n : Z)
| VArr (l : list jsstring)
| VObj (fields : list (string * jsstring)).

(** A row, a payload or a request body. *)
Abbreviation Row := (gmap string value).

(** An object literal [{ k1: v1, k2: v2, ... }]. *)
Definition obj (fields : list (string * value)) : Row := list_to_map fields.

(** A column the typed client declares as a string; [null] and a missing
    column read as the empty string, which is as falsy as they are. *)
Definition str_of (r : Row) (col : string) : jsstring :=
  match r !! col with
  | Some (VStr s) => s
  | _ => []
  end.

(** [r[col] === v] for a string [v]. *)
Definition field_is (r : Row) (col : string) (v : jsstring) : bool :=
  match r !! col with
  | Some (VStr s) => str_eqb s v
  | _ => false
  end.

(** Table name to rows, in storage order. *)
Abbreviation Store := (gmap string (list Row)).

Definition rows_of (st : Store) (tbl : string) : list Row :=
  default [] (st !! tbl).

(** [from(tbl).insert([row])]: the row is stored. *)
Definition insert_row (tbl : string) (row : Row) (st : Store) : Store :=
  <[tbl := rows_of st tbl ++ [row]]> st.

(** [from(tbl).update(payload).eq(col, v)]: in every row whose [col] is
    [v], the columns of the payload are overwritten and the others kept. *)
Definition update_rows (tbl : string) (payload : Row) (col : string)
    (v : jsstring) (st : Store) : Store :=
  <[tbl := (fun r => if field_is r col v then payload ∪ r else r)
             <$> rows_of st tbl]> st.

(** [from(tbl).upsert(row)], on the primary key [id]: the row with that id
    is overwritten column by column, or the row is stored when there is
    none. *)
Definition upsert_row (tbl : string) (row : Row) (st : Store) : Store :=
  let key := str_of row "id" in
  if existsb (fun r => field_is r "id" key) (rows_of st tbl)
  then update_rows tbl row "id" key st
  else insert_row tbl row st.

(** [.in(col, vals)] of a select. *)
Definition select_in (col : string) (vals : list jsstring)
    (rows : list Row) : list Row :=
  List.filter (fun r => existsb (field_is r col) vals) rows.

(** The answer to a write. *)
Inductive reply : Type :=
| Accepted (generated : Row)
| Refused (message : jsstring).

(** The answer to a read. *)
Inductive result (A : Type) : Type :=
| Data (d : A)
| Error (message : jsstring).
Arguments Data {A} d.
Arguments Error {A} message.

(** What a call can do besides answering: throw. *)
Inductive outcome : Type :=
| Returned
| ReturnedError (message : jsstring)
| Threw (message : jsstring).

End Backend.

Import Backend.

(** ** Worlds and traces *)

Module Ui.

(** A toast text: a literal, or [t(key)] of the language context. *)
Inductive text : Type :=
| Lit (s : jsstring)
| Tr (key : string).

(** [message || t(key)] *)
Definition lit_or (message : jsstring) (fallback : text) : text :=
  if truthy message then Lit message else fallback.

Record Toast : Type := mkToast {
  title : text;
  description : text;
  destructive : bool
}.

Inductive fetcher : Type :=
| FetchTourists
| FetchGuides
| FetchAssignments
| FetchGuideRequests
| FetchDrivers.

(** A request to the backend client. *)
Inductive call : Type :=
| Insert (tbl : string) (row : Row)
| Update (tbl : string) (payload : Row) (col : string) (v : jsstring)
| Upsert (tbl : string) (row : Row)
| Invoke (fn : string) (body : Row)
| SignUp (email password emailRedirectTo : jsstring) (data : Row).

Inductive event : Type :=
| Request (c : call)
| Toasted (t : Toast)
| ConsoleError (label : string) (detail : jsstring)
| ConsoleWarn (label : string) (detail : jsstring)
| Started (f : fetcher)
| LoginSuccess (userId session : jsstring).

Record World (S : Type) : Type := mkWorld {
  db : Store;
  ui : S;
  trace : list event
}.
Arguments mkWorld {S} db ui trace.
Arguments db {S} w.
Arguments ui {S} w.
Arguments trace {S} w.

Section Steps.
Context {S : Type}.

Definition emit (e : event) (w : World S) : World S :=
  mkWorld (db w) (ui w) (trace w ++ [e]).

Definition setUi (f : S -> S) (w : World S) : World S :=
  mkWorld (db w) (f (ui w)) (trace w).

Definition setDb (f : Store -> Store) (w : World S) : World S :=
  mkWorld (f (db w)) (ui w) (trace w).

Definition request (c : call) : World S -> World S := emit (Request c).
Definition toast (t : Toast) : World S -> World S := emit (Toasted t).
Definition start (f : fetcher) : World S -> World S := emit (Started f).

End Steps.

(** The requests of a trace, in order. *)
Definition requests (tr : list event) : list call :=
  omap (fun e => match e with Request c => Some c | _ => None end) tr.

(** The toasts of a trace, in order. *)
Definition toasts (tr : list event) : list Toast :=
  omap (fun e => match e with Toasted t => Some t | _ => None end) tr.

End Ui.

Import Ui.

(** ** The admin dashboard *)

Module Tourist.

Inductive Status : Type := active | pending | assigned.

Record t : Type := mk {
  id : jsstring;
  name : jsstring;
  email : jsstring;
  phone : jsstring;
  nationality : jsstring;
  status : Status;
  assignedGuide : jsstring
}.

End Tourist.

Module Assignment.

(** [status] is the store's column, cast and not checked. *)
Record t : Type := mk {
  id : jsstring;
  touristId : jsstring;
  guideId : jsstring;
  tourName : jsstring;
  startDate : jsstring;
  endDate : jsstring;
  status : jsstring;
  createdAt : jsstring
}.

(** [{ ...assignment, guideId }] *)
Definition withGuideId (g : jsstring) (a : t) : t :=
  mk (id a) (touristId a) g (tourName a) (startDate a) (endDate a)
     (status a) (createdAt a).

End Assignment.

Module AdminView.

(** The assignment form. *)
Record AssignForm : Type := mkAssignForm {
  selectedTourist : jsstring;
  selectedGuide : jsstring;
  tourName : jsstring;
  startDate : jsstring;
  endDate : jsstring
}.

(** The new guide form. *)
Record GuideForm : Type := mkGuideForm {
  newGuideName : jsstring;
  newGuideEmail : jsstring;
  newGuidePhone : jsstring;
  newGuideId : jsstring;
  newGuidePassword : jsstring;
  newGuideSpecializations : jsstring;
  newGuideStatus : jsstring
}.

(** The reassignment dialog. *)
Record Reassignment : Type := mkReassignment {
  reassignmentDialogOpen : bool;
  reassignmentNewGuideId : jsstring;
  reassignmentTouristId : jsstring
}.

(** The component state the handlers below read or write. *)
Record State : Type := mkState {
  isLoggedIn : bool;
  adminId : jsstring;
  password : jsstring;
  tourists : list Tourist.t;
  assignments : list Assignment.t;
  assignForm : AssignForm;
  guideForm : GuideForm;
  isCreatingGuide : bool;
  reassignment : Reassignment
}.

Definition setIsLoggedIn (b : bool) (s : State) : State :=
  mkState b (adminId s) (password s) (tourists s) (assignments s)
    (assignForm s) (guideForm s) (isCreatingGuide s) (reassignment s).

Definition setTourists (l : list Tourist.t) (s : State) : State :=
  mkState (isLoggedIn s) (adminId s) (password s) l (assignments s)
    (assignForm s) (guideForm s) (isCreatingGuide s) (reassignment s).

(** [setAssignments(prev => f(prev))] *)
Definition setAssignments (f : list Assignment.t -> list Assignment.t)
    (s : State) : State :=
  mkState (isLoggedIn s) (adminId s) (password s) (tourists s)
    (f (assignments s)) (assignForm s) (guideForm s) (isCreatingGuide s)
    (reassignment s).

Definition setAssignForm (f : AssignForm) (s : State) : State :=
  mkState (isLoggedIn s) (adminId s) (password s) (tourists s)
    (assignments s) f (guideForm s) (isCreatingGuide s) (reassignment s).

Definition setGuideForm (f : GuideForm) (s : State) : State :=
  mkState (isLoggedIn s) (adminId s) (password s) (tourists s)
    (assignments s) (assignForm s) f (isCreatingGuide s) (reassignment s).

Definition setIsCreatingGuide (b : bool) (s : State) : State :=
  mkState (isLoggedIn s) (adminId s) (password s) (tourists s)
    (assignments s) (assignForm s) (guideForm s) b (reassignment s).

Definition setReassignment (r : Reassignment) (s : State) : State :=
  mkState (isLoggedIn s) (adminId s) (password s) (tourists s)
    (assignments s) (assignForm s) (guideForm s) (isCreatingGuide s) r.

(** The form after its five setters were called with ['']. *)
Definition clearedAssignForm : AssignForm := mkAssignForm [] [] [] [] [].

(** The new guide form after its reset. *)
Definition clearedGuideForm : GuideForm :=
  mkGuideForm [] [] [] [] [] [] (js "available").

Definition errorToast (description : jsstring) : Toast :=
  mkToast (Lit (js "Error")) (Lit description) true.

(** *** fetchTourists *)

(** An entry of [assignmentMap]. *)
Record MapEntry : Type := mkEntry {
  entryStatus : jsstring;
  entryGuide : jsstring
}.

(** [assignment.guides?.name] *)
Definition guideName (assignment : Row) : jsstring :=
  match assignment !! "guides" with
  | Some (VObj fields) => default [] (list_to_map (M := gmap string jsstring) fields !! "name")
  | _ => []
  end.

(** The entry a fetched assignment row writes:
    [{ status: assignment.status,
       assignedGuide: assignment.guides?.name || 'Unknown Guide' }] *)
Definition entryOf (assignment : Row) : MapEntry :=
  mkEntry (str_of assignment "status")
    (or_else (guideName assignment) (js "Unknown Guide")).

(** The [reduce] over the fetched assignment rows, from [{}]: a later row
    overwrites the entry of an earlier row of the same tourist. *)
Definition assignmentMap (assignmentsData : list Row) : gmap jsstring MapEntry :=
  foldl (fun acc assignment =>
           <[str_of assignment "tourist_id" := entryOf assignment]> acc)
        ∅ assignmentsData.

Definition formatTourist (m : gmap jsstring MapEntry) (profile : Row) : Tourist.t :=
  let assignmentStatus := entryStatus <$> m !! str_of profile "id" in
  let status :=
    if bool_decide (assignmentStatus = Some (js "active")) then Tourist.assigned
    else if bool_decide (assignmentStatus = Some (js "pending")) then Tourist.pending
    else Tourist.active in
  Tourist.mk
    (str_of profile "id")
    (or_else (str_of profile "full_name") (js "Unnamed Tourist"))
    (or_else (str_of profile "contact_info") [])
    (or_else (str_of profile "phone_number")
       (or_else (str_of profile "contact_info") []))
    (or_else (str_of profile "nationality") (js "Not specified"))
    status
    (or_else (default [] (entryGuide <$> m !! str_of profile "id")) []).

Definition formatTourists (profilesData assignmentsData : list Row) : list Tourist.t :=
  formatTourist (assignmentMap assignmentsData) <$> profilesData.

(** [profiles] answers the profile select, [assigned] the select of the
    assignment rows with status pending or active.  A failed profile select
    is reported and leaves the tourists as they were; a failed assignment
    select is a warning and counts as no rows. *)
Definition fetchTourists (profiles assigned : result (list Row))
    (w : World State) : World State :=
  match profiles with
  | Error message =>
      toast (errorToast (js "Failed to load tourists. Please try again."))
        (emit (ConsoleError "Error fetching tourists:" message)
           (emit (ConsoleError "Error fetching profiles:" message) w))
  | Data profilesData =>
      let '(assignmentsData, w1) :=
        match assigned with
        | Error message =>
            ([], emit (ConsoleWarn "Could not fetch assignments:" message) w)
        | Data rows => (rows, w)
        end in
      setUi (setTourists (formatTourists profilesData assignmentsData)) w1
  end.

(** *** fetchAssignments *)

Definition formatAssignment (item : Row) : Assignment.t :=
  Assignment.mk (str_of item "id") (str_of item "tourist_id")
    (str_of item "guide_id") (str_of item "tour_name")
    (str_of item "start_date") (str_of item "end_date")
    (str_of item "status") (str_of item "created_at").

(** [selected] answers the select of all assignment rows; the local list is
    replaced as a whole. *)
Definition fetchAssignments (selected : result (list Row))
    (w : World State) : World State :=
  match selected with
  | Error message =>
      toast (errorToast (js "Failed to fetch assignments"))
        (emit (ConsoleError "Error fetching assignments:" message) w)
  | Data data =>
      setUi (setAssignments (fun _ => formatAssignment <$> data)) w
  end.

(** *** handleLogin *)

Definition handleLogin (w : World State) : World State :=
  if str_eqb (adminId (ui w)) (js "admin")
     && str_eqb (password (ui w)) (js "admin123")
  then
    toast (mkToast (Lit (js "Login Successful"))
             (Lit (js "Welcome to the Admin Dashboard!")) false)
      (setUi (setIsLoggedIn true) w)
  else
    toast (mkToast (Lit (js "Login Failed"))
             (Lit (js "Invalid credentials. Try admin/admin123")) true) w.

(** *** handleAssignGuide *)

(** The handler reads the form, [insert] answers the insert, [notified] is
    how the call of the notification function ended, and [later] is the
    clock when the local copy is built. *)
Definition handleAssignGuide (insert : reply) (notified : outcome) (later : Z)
    (w : World State) : World State :=
  let f := assignForm (ui w) in
  if falsy (selectedTourist f) || falsy (selectedGuide f) || falsy (tourName f)
     || falsy (startDate f) || falsy (endDate f)
  then toast (errorToast (js "Please fill in all fields")) w
  else
    let row := obj [("tourist_id", VStr (selectedTourist f));
                    ("guide_id", VStr (selectedGuide f));
                    ("tour_name", VStr (tourName f));
                    ("start_date", VStr (startDate f));
                    ("end_date", VStr (endDate f));
                    ("status", VStr (js "active"))] in
    let w1 := request (Insert "tour_assignments" row) w in
    match insert with
    | Refused message =>
        toast (errorToast (or_else message (js "Failed to create assignment")))
          (emit (ConsoleError "Error creating assignment:" message) w1)
    | Accepted generated =>
        let data := row ∪ generated in
        let w2 := setDb (insert_row "tour_assignments" data) w1 in
        let w3 :=
          request (Invoke "send-assignment-notification"
                     (obj [("touristId", VStr (selectedTourist f));
                           ("guideId", VStr (selectedGuide f));
                           ("tourName", VStr (tourName f));
                           ("startDate", VStr (startDate f));
                           ("endDate", VStr (endDate f))])) w2 in
        let w4 :=
          match notified with
          | Threw emailError =>
              emit (ConsoleError "Error sending notification emails:" emailError) w3
          | _ => w3
          end in
        let newAssignment :=
          Assignment.mk (str_of data "id") (selectedTourist f) (selectedGuide f)
            (tourName f) (startDate f) (endDate f) (js "active")
            (toISOString later) in
        toast (mkToast (Lit (js "Assignment Created"))
                 (Lit (js "Tour guide assigned successfully and notifications sent!"))
                 false)
          (setUi (setAssignForm clearedAssignForm)
             (setUi (setAssignments (fun prev => prev ++ [newAssignment])) w4))
    end.

(** *** handleCreateGuide *)

(** [s.split(',').map(s => s.trim()).filter(s => s)], or [[]] for the empty
    input. *)
Definition specializationsOf (input : jsstring) : list jsstring :=
  if truthy input
  then List.filter truthy (List.map trim (split (N_of_ascii ",") input))
  else [].

Definition handleCreateGuide (insert : reply) (w : World State) : World State :=
  let f := guideForm (ui w) in
  if falsy (newGuideName f) || falsy (newGuideEmail f) || falsy (newGuidePhone f)
     || falsy (newGuideId f) || falsy (newGuidePassword f)
  then toast (errorToast (js "Please fill in all required fields")) w
  else
    let w1 := setUi (setIsCreatingGuide true) w in
    let specializations := specializationsOf (newGuideSpecializations f) in
    let row := obj [("guide_id", VStr (newGuideId f));
                    ("password", VStr (newGuidePassword f));
                    ("name", VStr (newGuideName f));
                    ("email", VStr (newGuideEmail f));
                    ("phone", VStr (newGuidePhone f));
                    ("specializations", VArr specializations);
                    ("status", VStr (newGuideStatus f));
                    ("rating", VNum 0)] in
    let w2 := request (Insert "guides" row) w1 in
    let w3 :=
      match insert with
      | Refused message =>
          toast (errorToast (or_else message (js "Failed to create guide")))
            (emit (ConsoleError "Error creating guide:" message) w2)
      | Accepted generated =>
          start FetchGuides
            (setUi (setGuideForm clearedGuideForm)
               (toast (mkToast (Lit (js "Success"))
                         (Lit (js "Guide created successfully! Guide ID: "
                               ++ newGuideId f)) false)
                  (setDb (insert_row "guides" (row ∪ generated)) w2)))
      end in
    setUi (setIsCreatingGuide false) w3.

(** *** handleRequestResponse *)

Inductive Decision : Type := approved | rejected.

Definition decisionString (d : Decision) : jsstring :=
  match d with
  | approved => js "approved"
  | rejected => js "rejected"
  end.

(** [updateData]: [admin_response] is sent when a response is given, and
    [assigned_guide_id] only on an approval with a guide id. *)
Definition updateData (status : Decision) (guideId response : option jsstring) : Row :=
  let base :=
    match response with
    | Some text => obj [("status", VStr (decisionString status));
                        ("admin_response", VStr text)]
    | None => obj [("status", VStr (decisionString status))]
    end in
  match status, guideId with
  | approved, Some g =>
      if truthy g then <["assigned_guide_id" := VStr g]> base else base
  | _, _ => base
  end.

Definition handleRequestResponse (update : reply) (requestId : jsstring)
    (status : Decision) (guideId response : option jsstring)
    (w : World State) : World State :=
  let payload := updateData status guideId response in
  let w1 := request (Update "guide_requests" payload "id" requestId) w in
  match update with
  | Refused message =>
      toast (errorToast (js "Failed to update request"))
        (emit (ConsoleError "Error updating request:" message) w1)
  | Accepted _ =>
      start FetchGuides
        (start FetchGuideRequests
           (toast (mkToast (Lit (js "Success"))
                     (Lit (js "Request " ++ decisionString status
                           ++ js " successfully!")) false)
              (setDb (update_rows "guide_requests" payload "id" requestId) w1)))
  end.

(** *** handleReassignGuide *)

(** [new Date().toISOString().split('T')[0]] for the reading [t] of the
    clock. *)
Definition isoDay (t : Z) : jsstring :=
  hd [] (split (N_of_ascii "T") (toISOString t)).

(** [new Date(v).toISOString().split('T')[0]] for a number [v]: nothing
    when [toISOString] throws. *)
Definition isoDayOf (v : Z) : option jsstring :=
  (fun iso => hd [] (split (N_of_ascii "T") iso)) <$> dateToISOString v.

(** The end of both branches: the toast, the dialog reset and the two
    fetchers. *)
Definition reassignDone (w : World State) : World State :=
  start FetchGuideRequests
    (start FetchAssignments
       (setUi (setReassignment (mkReassignment false [] []))
          (toast (mkToast (Lit (js "Success"))
                    (Lit (js "Tour guide assigned successfully!")) false) w))).

Definition reassignFailed (message : jsstring) (w : World State) : World State :=
  toast (errorToast (or_else message (js "Failed to assign guide")))
    (emit (ConsoleError "Error reassigning guide:" message) w).

(** [write] answers the update or the insert.  The clock is read three
    times: [today] is the reading of [new Date()] for the start date, [now]
    the reading of [Date.now()] for the end date, and [later] the reading
    of [new Date()] when the local copy is built.  The end date is the date
    of [now] plus seven days; when that number is no time value the
    RangeError is thrown while the row is built, so nothing is sent and the
    error is reported like any other.  The reply [data] to the insert is
    the row as the store holds it: what was sent, with the columns the store
    filled in or rewrote; the local copy takes its id and its dates from
    it. *)
Definition handleReassignGuide (write : reply) (today now later : Z)
    (w : World State) : World State :=
  let r := reassignment (ui w) in
  if falsy (reassignmentNewGuideId r) || falsy (reassignmentTouristId r)
  then toast (errorToast (js "Please select a new guide")) w
  else
    match List.find (fun a => str_eqb (Assignment.touristId a) (reassignmentTouristId r))
            (assignments (ui w)) with
    | Some existingAssignment =>
        let payload := obj [("guide_id", VStr (reassignmentNewGuideId r))] in
        let w1 := request (Update "tour_assignments" payload "id"
                             (Assignment.id existingAssignment)) w in
        match write with
        | Refused message => reassignFailed message w1
        | Accepted _ =>
            let w2 := setDb (update_rows "tour_assignments" payload "id"
                               (Assignment.id existingAssignment)) w1 in
            reassignDone
              (setUi (setAssignments
                        (List.map (fun assignment =>
                           if str_eqb (Assignment.id assignment)
                                (Assignment.id existingAssignment)
                           then Assignment.withGuideId (reassignmentNewGuideId r) assignment
                           else assignment))) w2)
        end
    | None =>
        let start_date := isoDay today in
        match isoDayOf (now + 7 * 24 * 60 * 60 * 1000) with
        | None => reassignFailed invalidTimeValue w
        | Some end_date =>
            let row := obj [("tourist_id", VStr (reassignmentTouristId r));
                            ("guide_id", VStr (reassignmentNewGuideId r));
                            ("tour_name", VStr (js "AlUla Heritage Tour"));
                            ("start_date", VStr start_date);
                            ("end_date", VStr end_date);
                            ("status", VStr (js "active"))] in
            let w1 := request (Insert "tour_assignments" row) w in
            match write with
            | Refused message => reassignFailed message w1
            | Accepted generated =>
                let data := generated ∪ row in
                let w2 := setDb (insert_row "tour_assignments" data) w1 in
                let newAssignment :=
                  Assignment.mk (str_of data "id") (reassignmentTouristId r)
                    (reassignmentNewGuideId r) (js "AlUla Heritage Tour")
                    (str_of data "start_date") (str_of data "end_date")
                    (js "active") (toISOString later) in
                reassignDone
                  (setUi (setAssignments (fun prev => prev ++ [newAssignment])) w2)
            end
        end
    end.

(** *** removeAssignment and updateAssignmentStatus *)

(** [prev.filter(a => a.id !== assignmentId)], and the toast. *)
Definition removeAssignment (assignmentId : jsstring) (w : World State) : World State :=
  toast (mkToast (Lit (js "Assignment Removed"))
           (Lit (js "Assignment has been removed successfully.")) false)
    (setUi (setAssignments
              (List.filter (fun a => negb (str_eqb (Assignment.id a) assignmentId))))
       w).

(** [{ ...a, status }] *)
Definition withStatus (status : jsstring) (a : Assignment.t) : Assignment.t :=
  Assignment.mk (Assignment.id a) (Assignment.touristId a) (Assignment.guideId a)
    (Assignment.tourName a) (Assignment.startDate a) (Assignment.endDate a)
    status (Assignment.createdAt a).

Definition updateAssignmentStatus (assignmentId status : jsstring)
    (w : World State) : World State :=
  toast (mkToast (Lit (js "Status Updated"))
           (Lit (js "Assignment status changed to " ++ status ++ js ".")) false)
    (setUi (setAssignments
              (List.map (fun a => if str_eqb (Assignment.id a) assignmentId
                                  then withStatus status a else a)))
       w).

(** *** openTouristReassignmentDialog *)

(** The tourist is set and the dialog opened; the guide chosen before, if
    any, stays. *)
Definition openTouristReassignmentDialog (touristId : jsstring)
    (w : World State) : World State :=
  setUi (fun s =>
           setReassignment
             (mkReassignment true (reassignmentNewGuideId (reassignment s)) touristId)
             s) w.

(** *** getTouristName and getGuideName *)

(** [tourists.find(t => t.id === touristId)?.name || 'Unknown Tourist'] *)
Definition getTouristName (s : State) (touristId : jsstring) : jsstring :=
  or_else
    (default [] (Tourist.name
                   <$> List.find (fun t => str_eqb (Tourist.id t) touristId)
                         (tourists s)))
    (js "Unknown Tourist").

(** [guides.find(g => g.id === guideId)?.name || 'Unknown Guide'], on the
    guide rows as fetched. *)
Definition getGuideName (guides : list Row) (guideId : jsstring) : jsstring :=
  or_else
    (default [] ((fun g => str_of g "name")
                   <$> List.find (fun g => field_is g "id" guideId) guides))
    (js "Unknown Guide").

(** *** Editing a guide *)

(** The two cells of the guide editor: the id of the guide being edited and
    the draft, a copy of the guide row. *)
Record GuideEditor : Type := mkGuideEditor {
  editingGuide : option jsstring;
  editGuideData : option Row
}.

(** [{ k: o.k, ... }] for the listed keys: a key the object lacks is
    [undefined] and is not sent. *)
Definition pick (keys : list string) (o : Row) : Row :=
  list_to_map (omap (fun k => pair k <$> o !! k) keys).

Definition editableColumns : list string :=
  ["name"; "email"; "phone"; "specializations"; "status"].

Definition handleEditGuide (guide : Row) (w : World GuideEditor) : World GuideEditor :=
  setUi (fun _ => mkGuideEditor (Some (str_of guide "id")) (Some guide)) w.

(** [setEditGuideData({ ...editGuideData, [column]: value })], the change
    handler of the name, email, phone and status inputs. *)
Definition editField (column : string) (value : jsstring)
    (w : World GuideEditor) : World GuideEditor :=
  setUi (fun e =>
           mkGuideEditor (editingGuide e)
             (Some (<[column := VStr value]> (default ∅ (editGuideData e))))) w.

(** [l.join(sep)] *)
Fixpoint join (sep : jsstring) (l : list jsstring) : jsstring :=
  match l with
  | [] => []
  | [x] => x
  | x :: rest => x ++ sep ++ join sep rest
  end.

(** What the specializations input shows:
    [(editGuideData?.specializations || []).join(', ')]. *)
Definition specializationsText (e : GuideEditor) : jsstring :=
  match editGuideData e with
  | Some draft =>
      match draft !! "specializations" with
      | Some (VArr l) => join (js ", ") l
      | _ => []
      end
  | None => []
  end.

(** What its change handler stores:
    [value.split(',').map(s => s.trim()).filter(s => s)]. *)
Definition parseSpecializations (value : jsstring) : list jsstring :=
  List.filter truthy (List.map trim (split (N_of_ascii ",") value)).

Definition editSpecializations (value : jsstring)
    (w : World GuideEditor) : World GuideEditor :=
  setUi (fun e =>
           mkGuideEditor (editingGuide e)
             (Some (<["specializations" := VArr (parseSpecializations value)]>
                      (default ∅ (editGuideData e))))) w.

Definition handleSaveEdit (update : reply) (w : World GuideEditor) : World GuideEditor :=
  match editGuideData (ui w) with
  | None => w
  | Some draft =>
      let payload := pick editableColumns draft in
      let w1 := request (Update "guides" payload "id" (str_of draft "id")) w in
      match update with
      | Refused message =>
          toast (errorToast (or_else message (js "Failed to update guide")))
            (emit (ConsoleError "Error updating guide:" message) w1)
      | Accepted _ =>
          start FetchGuides
            (setUi (fun _ => mkGuideEditor None None)
               (toast (mkToast (Lit (js "Success"))
                         (Lit (js "Guide updated successfully!")) false)
                  (setDb (update_rows "guides" payload "id" (str_of draft "id")) w1)))
      end
  end.

Definition handleCancelEdit (w : World GuideEditor) : World GuideEditor :=
  setUi (fun _ => mkGuideEditor None None) w.

(** *** setupRealtimeUpdates *)

(** A change delivered on the channel: the table, and for [profiles] the
    new and the old row of the payload. *)
Inductive Change : Type :=
| GuideRequestsChanged
| ProfilesChanged (new old : option Row)
| TourAssignmentsChanged
| GuidesChanged.

(** [(row as any)?.user_type === 'tourist'] *)
Definition isTouristRow (row : option Row) : bool :=
  match row with
  | Some r => field_is r "user_type" (js "tourist")
  | None => false
  end.

(** The callback of the change. *)
Definition onChange {S : Type} (c : Change) (w : World S) : World S :=
  match c with
  | GuideRequestsChanged => start FetchTourists (start FetchGuideRequests w)
  | ProfilesChanged new old =>
      start FetchGuideRequests
        (if isTouristRow new || isTouristRow old then start FetchTourists w else w)
  | TourAssignmentsChanged => start FetchAssignments (start FetchTourists w)
  | GuidesChanged => start FetchGuides w
  end.

End AdminView.

(** ** The tourist sign-in / sign-up form *)

Module TouristPasswordLogin.

Inductive Method : Type := phone | email.

Record LoginState : Type := mkLoginState {
  identifier : jsstring;
  password : jsstring;
  confirmPassword : jsstring;
  fullName : jsstring;
  phoneNumber : jsstring;
  method : Method;
  isSignUp : bool;
  showPassword : bool;
  loading : bool
}.

(** [method === 'phone'] *)
Definition isPhone (m : Method) : bool :=
  match m with phone => true | email => false end.

(** [setLoginState(prev => ({ ...prev, loading }))] *)
Definition setLoading (b : bool) (s : LoginState) : LoginState :=
  mkLoginState (identifier s) (password s) (confirmPassword s) (fullName s)
    (phoneNumber s) (method s) (isSignUp s) (showPassword s) b.

(** [setLoginState(prev => ({ ...prev, isSignUp }))] *)
Definition setIsSignUp (b : bool) (s : LoginState) : LoginState :=
  mkLoginState (identifier s) (password s) (confirmPassword s) (fullName s)
    (phoneNumber s) (method s) b (showPassword s) (loading s).

(** [[^\s@]] *)
Definition notSpaceNorAt : regex :=
  RClass (fun c => negb (isWhiteSpace c || (c =? N_of_ascii "@")%N)).

(** [/^[^\s@]+@[^\s@]+\.[^\s@]+$/] *)
Definition emailRegex : regex :=
  RCat (RPlus notSpaceNorAt)
    (RCat (RChar (N_of_ascii "@"))
       (RCat (RPlus notSpaceNorAt)
          (RCat (RChar (N_of_ascii ".")) (RPlus notSpaceNorAt)))).

Definition invalid (titleKey : string) (description : text)
    (w : World LoginState) : bool * World LoginState :=
  (false, toast (mkToast (Tr titleKey) description true) w).

Definition validateInput (w : World LoginState) : bool * World LoginState :=
  let s := ui w in
  if falsy (trim (identifier s)) || falsy (trim (password s))
  then invalid "missingInfo" (Tr "fillAllFields") w
  else if isSignUp s && falsy (trim (fullName s))
  then invalid "missingInfo" (Tr "enterFullNameMsg") w
  else if isSignUp s && isPhone (method s) && falsy (trim (identifier s))
  then invalid "missingInfo" (Lit (js "Please enter your phone number.")) w
  else
  match
    match method s with
    | email =>
        if negb (test emailRegex (identifier s))
        then Some ("invalidEmail", Tr "validEmailMsg") else None
    | phone =>
        let digits := digitsOf (identifier s) in
        if Z.of_nat (List.length digits) <? 9
        then Some ("invalidPhone", Tr "validPhoneMsg") else None
    end
  with
  | Some (titleKey, description) => invalid titleKey description w
  | None =>
  if isSignUp s && negb (str_eqb (password s) (confirmPassword s))
  then invalid "passwordsNoMatch" (Tr "passwordsMatchMsg") w
  else if Z.of_nat (List.length (password s)) <? 6
  then invalid "passwordTooShort" (Tr "passwordLengthMsg") w
  else (true, w)
  end.

(** What [auth.signUp] returns in [data]. *)
Record SignUpData : Type := mkSignUpData {
  user : option jsstring;      (* the id of the user, when there is one *)
  session : option jsstring    (* the session, when there is one *)
}.

(** The row upserted after a sign-up with a session. *)
Definition profileData (userId : jsstring) (s : LoginState) : Row :=
  obj [("id", VStr userId);
       ("user_type", VStr (js "tourist"));
       ("full_name", VStr (trim (fullName s)));
       ("phone_number", VStr (trim (phoneNumber s)));
       ("contact_info", VStr (match method s with
                              | phone => identifier s
                              | email => phoneNumber s
                              end))].

(** [origin] is [window.location.origin], [signedUp] answers
    [auth.signUp] and [upserted] is how the profile upsert ended. *)
Definition handleSignUp (origin : jsstring) (signedUp : result SignUpData)
    (upserted : outcome) (w : World LoginState) : World LoginState :=
  let '(valid, w0) := validateInput w in
  if negb valid then w0
  else
    let s := ui w in
    let w1 := setUi (setLoading true) w0 in
    let w2 :=
      request (SignUp (identifier s) (password s) (origin ++ js "/")
                 (obj [("user_type", VStr (js "tourist"));
                       ("full_name", VStr (trim (fullName s)));
                       ("phone_number", VStr (trim (phoneNumber s)))])) w1 in
    let w3 :=
      match signedUp with
      | Error message =>
          toast (mkToast (Tr "signUpFailed")
                   (lit_or message (Tr "unableToCreate")) true)
            (emit (ConsoleError "Error signing up:" message) w2)
      | Data (mkSignUpData (Some userId) (Some sess)) =>
          let w4 := request (Upsert "profiles" (profileData userId s)) w2 in
          let w5 :=
            match upserted with
            | Returned => setDb (upsert_row "profiles" (profileData userId s)) w4
            | ReturnedError profileError =>
                emit (ConsoleError "Error creating profile:" profileError) w4
            | Threw profileError =>
                emit (ConsoleError "Profile creation failed:" profileError) w4
            end in
          emit (LoginSuccess userId sess)
            (toast (mkToast (Tr "accountCreated") (Tr "welcomeTourist") false) w5)
      | Data _ =>
          setUi (setIsSignUp false)
            (toast (mkToast (Tr "checkEmail") (Tr "confirmEmailMsg") false) w2)
      end in
    setUi (setLoading false) w3.

(** *** handleTabChange, toggleAuthMode, togglePasswordVisibility *)

(** The new active tab and the new login state. *)
Definition handleTabChange (m : Method) (s : LoginState) : Method * LoginState :=
  (m, mkLoginState [] [] [] (fullName s) (phoneNumber s) m (isSignUp s)
        (showPassword s) (loading s)).

Definition toggleAuthMode (s : LoginState) : LoginState :=
  mkLoginState (identifier s) [] [] [] [] (method s) (negb (isSignUp s))
    (showPassword s) (loading s).

Definition togglePasswordVisibility (s : LoginState) : LoginState :=
  mkLoginState (identifier s) (password s) (confirmPassword s) (fullName s)
    (phoneNumber s) (method s) (isSignUp s) (negb (showPassword s)) (loading s).

(** *** handleSignIn *)

(** [signedIn] answers [auth.signInWithPassword].  The result is the
    credentials sent to it, [email] first, when the call is made, and the
    world after the handler; the call precedes everything the handler adds
    to the trace. *)
Definition handleSignIn (signedIn : result SignUpData) (w : World LoginState)
    : option (jsstring * jsstring) * World LoginState :=
  let '(valid, w0) := validateInput w in
  if negb valid then (None, w0)
  else
    let s := ui w in
    let w1 := setUi (setLoading true) w0 in
    let w2 :=
      match signedIn with
      | Error message =>
          toast (mkToast (Tr "signInFailed")
                   (lit_or message (Tr "invalidCredentials")) true)
            (emit (ConsoleError "Error signing in:" message) w1)
      | Data (mkSignUpData (Some userId) (Some sess)) =>
          emit (LoginSuccess userId sess)
            (toast (mkToast (Tr "loginSuccessful") (Tr "welcomeTourist") false) w1)
      | Data _ => w1
      end in
    (Some (identifier s, password s), setUi (setLoading false) w2).

End TouristPasswordLogin.

Import AdminView.

(** ** Vocabulary of the statements *)

(** A column that holds nothing. *)
Definition unset (v : option value) : Prop := v = None \/ v = Some VNull.

(** An entry of a specialization set: not empty, no white space at either
    end, no comma. *)
Definition trimmedEntry (s : jsstring) : Prop :=
  s <> []
  /\ (forall c, head s = Some c -> isWhiteSpace c = false)
  /\ (forall c, last s = Some c -> isWhiteSpace c = false)
  /\ Forall (fun c => c <> N_of_ascii ",") s.

(** The strings a regular expression denotes. *)
Inductive Matches : regex -> jsstring -> Prop :=
| MEps : Matches REps []
| MClass (p : N -> bool) (c : N) : p c = true -> Matches (RClass p) [c]
| MCat (r1 r2 : regex) (s1 s2 : jsstring) :
    Matches r1 s1 -> Matches r2 s2 -> Matches (RCat r1 r2) (s1 ++ s2)
| MAltL (r1 r2 : regex) (s : jsstring) : Matches r1 s -> Matches (RAlt r1 r2) s
| MAltR (r1 r2 : regex) (s : jsstring) : Matches r2 s -> Matches (RAlt r1 r2) s
| MStarNil (r : regex) : Matches (RStar r) []
| MStarApp (r : regex) (s1 s2 : jsstring) :
    Matches r s1 -> Matches (RStar r) s2 -> Matches (RStar r) (s1 ++ s2).

(** A code unit allowed in the three parts of an address: no white space,
    no [@]. *)
Definition addressUnit (c : N) : Prop :=
  isWhiteSpace c = false /\ c <> N_of_ascii "@".

(** Two assignments that agree on everything but [createdAt]. *)
Definition sameButCreatedAt (a b : Assignment.t) : Prop :=
  Assignment.id a = Assignment.id b
  /\ Assignment.touristId a = Assignment.touristId b
  /\ Assignment.guideId a = Assignment.guideId b
  /\ Assignment.tourName a = Assignment.tourName b
  /\ Assignment.startDate a = Assignment.startDate b
  /\ Assignment.endDate a = Assignment.endDate b
  /\ Assignment.status a = Assignment.status b.

(** The local assignments mirror the stored rows: entry by entry, in
    storage order, the local copy is the formatted row up to [createdAt]. *)
Definition mirrors (w : World State) : Prop :=
  Forall2 (fun a row => sameButCreatedAt a (formatAssignment row))
    (assignments (ui w)) (rows_of (db w) "tour_assignments").

(** Every row of a table has a string as [id]. *)
Definition keyed (rows : list Row) : Prop :=
  Forall (fun row => exists s, row !! "id" = Some (VStr s)) rows.

(** The calendar date of day [doe] of 400-year era [era], as [civil]
    computes it. *)
Definition civilOfEra (era doe : Z) : Z * Z * Z :=
  let yoe := (doe - doe / 1460 + doe / 36524 - doe / 146096) / 365 in
  let doy := doe - (365 * yoe + yoe / 4 - yoe / 100) in
  let mp := (5 * doy + 2) / 153 in
  let d := doy - (153 * mp + 2) / 5 + 1 in
  let m := if mp <? 10 then mp + 3 else mp - 9 in
  let y := yoe + era * 400 in
  (if m <=? 2 then y + 1 else y, m, d).

(** For one day of an era: month and day of the month are in range, the
    year of the era is within 0..400, below 400 before the last January
    of the era, and at least 370 from 1970-01-01 on in era 4. *)
Definition civilInRange (doe : Z) : bool :=
  let '(y, m, d) := civilOfEra 0 doe in
  (1 <=? m) && (m <=? 12) && (1 <=? d) && (d <=? 31)
  && (0 <=? y) && (y <=? 400)
  && ((146037 <=? doe) || (y <=? 399))
  && ((doe <? 135080) || (370 <=? y)).

(** [f] holds of the [count] integers from [n] on. *)
Fixpoint allFrom (count : nat) (n : Z) (f : Z -> bool) : bool :=
  match count with
  | O => true
  | S k => f n && allFrom k (n + 1) f
  end.

(** ** Sample data *)

Module Sample.

(** A request that already names a guide. *)
Definition requestWithGuide : Row :=
  obj [("id", VStr (js "r1"));
       ("tourist_id", VStr (js "t1"));
       ("request_message", VStr (js "A guide for Hegra, please"));
       ("status", VStr (js "pending"));
       ("assigned_guide_id", VStr (js "g1"))].

Definition emptyState : State :=
  mkState false [] [] [] [] clearedAssignForm clearedGuideForm false
    (mkReassignment false [] []).

Definition triage : World State :=
  mkWorld {[ "guide_requests" := [requestWithGuide] ]} emptyState [].

(** A tourist profile. *)
Definition aisha : Row :=
  obj [("id", VStr (js "t1"));
       ("full_name", VStr (js "Aisha"));
       ("contact_info", VStr (js "aisha@example.com"));
       ("nationality", VStr (js "Saudi"));
       ("user_type", VStr (js "tourist"))].

(** Two assignment rows of that tourist, each selected with its guide. *)
Definition activeWithAli : Row :=
  obj [("id", VStr (js "a1"));
       ("tourist_id", VStr (js "t1"));
       ("guide_id", VStr (js "g1"));
       ("tour_name", VStr (js "Hegra at dawn"));
       ("start_date", VStr (js "2025-03-01"));
       ("end_date", VStr (js "2025-03-03"));
       ("status", VStr (js "active"));
       ("created_at", VStr (js "2025-02-20T08:00:00.000Z"));
       ("guides", VObj [("name", js "Ali")])].

Definition pendingWithBadr : Row :=
  obj [("id", VStr (js "a2"));
       ("tourist_id", VStr (js "t1"));
       ("guide_id", VStr (js "g2"));
       ("tour_name", VStr (js "Old Town walk"));
       ("start_date", VStr (js "2025-03-05"));
       ("end_date", VStr (js "2025-03-06"));
       ("status", VStr (js "pending"));
       ("created_at", VStr (js "2025-02-19T08:00:00.000Z"));
       ("guides", VObj [("name", js "Badr")])].

(** A completed assignment of the same tourist. *)
Definition completedWithAli : Row :=
  <["status" := VStr (js "completed")]> activeWithAli.

(** The dashboard after both rows were fetched, with the reassignment
    dialog open on the tourist and guide [g3] chosen. *)
Definition reassigning : World State :=
  mkWorld {[ "tour_assignments" := [activeWithAli; pendingWithBadr] ]}
    (mkState true [] [] []
       (formatAssignment <$> [activeWithAli; pendingWithBadr])
       clearedAssignForm clearedGuideForm false
       (mkReassignment true (js "g3") (js "t1")))
    [].

(** The login form with the fixed pair typed in. *)
Definition loggingIn : World State :=
  mkWorld ∅
    (mkState false (js "admin") (js "admin123") [] [] clearedAssignForm
       clearedGuideForm false (mkReassignment false [] []))
    [].

(** The assignment form without a tour name. *)
Definition assigningWithoutTourName : World State :=
  mkWorld {[ "tour_assignments" := [pendingWithBadr] ]}
    (mkState true [] [] [] [formatAssignment pendingWithBadr]
       (mkAssignForm (js "t1") (js "g1") [] (js "2025-03-01") (js "2025-03-03"))
       clearedGuideForm false (mkReassignment false [] []))
    [].

(** The assignment form, filled in. *)
Definition assigning : World State :=
  mkWorld {[ "tour_assignments" := [pendingWithBadr] ]}
    (mkState true [] [] [] [formatAssignment pendingWithBadr]
       (mkAssignForm (js "t1") (js "g1") (js "Hegra at dawn") (js "2025-03-01")
          (js "2025-03-03"))
       clearedGuideForm false (mkReassignment false [] []))
    [].

(** The reassignment dialog open on a tourist without an assignment. *)
Definition assigningFirstGuide : World State :=
  mkWorld {[ "tour_assignments" := [activeWithAli] ]}
    (mkState true [] [] [] [formatAssignment activeWithAli]
       clearedAssignForm clearedGuideForm false
       (mkReassignment true (js "g3") (js "t2")))
    [].

(** 2024-02-29T23:59:59.999Z and, one millisecond later,
    2024-03-01T00:00:00.000Z. *)
Definition beforeMidnight : Z := 1709251199999.
Definition midnight : Z := 1709251200000.

(** 2024-02-26T10:00:00.000Z *)
Definition lateFebruary : Z := 1708941600000.

(** The new guide form, filled in. *)
Definition creatingGuide : World State :=
  mkWorld ∅
    (mkState true [] [] [] [] clearedAssignForm
       (mkGuideForm (js "Ali") (js "ali@example.com") (js "+966500000001")
          (js "G-17") (js "pw-17") (js "Desert, Night Tour, ") (js "available"))
       false (mkReassignment false [] []))
    [].

(** The sign-up form, filled in. *)
Definition signingUp : World TouristPasswordLogin.LoginState :=
  mkWorld ∅
    (TouristPasswordLogin.mkLoginState (js "aisha@example.com") (js "secret1")
       (js "secret1") (js "  Aisha Al-Harbi ") (js " +966500000000")
       TouristPasswordLogin.email true false false)
    [].

(** The new guide form without an email. *)
Definition creatingGuideWithoutEmail : World State :=
  mkWorld ∅
    (mkState true [] [] [] [] clearedAssignForm
       (mkGuideForm (js "Ali") [] (js "+966500000001") (js "G-17") (js "pw-17")
          (js "Desert") (js "busy"))
       false (mkReassignment false [] []))
    [].

(** Two guide rows. *)
Definition guideAli : Row :=
  obj [("id", VStr (js "g1"));
       ("guide_id", VStr (js "G-01"));
       ("password", VStr (js "pw-01"));
       ("name", VStr (js "Ali"));
       ("email", VStr (js "ali@example.com"));
       ("phone", VStr (js "+966500000001"));
       ("rating", VNum 5);
       ("specializations", VArr [js "Desert"; js "Night Tour"]);
       ("status", VStr (js "available"))].

Definition guideBadr : Row :=
  obj [("id", VStr (js "g2"));
       ("guide_id", VStr (js "G-02"));
       ("password", VStr (js "pw-02"));
       ("name", VStr (js "Badr"));
       ("email", VStr (js "badr@example.com"));
       ("phone", VStr (js "+966500000002"));
       ("rating", VNum 4);
       ("specializations", VArr [js "Old Town"]);
       ("status", VStr (js "busy"))].

(** The roster with no guide open in the editor. *)
Definition roster : World GuideEditor :=
  mkWorld {[ "guides" := [guideAli; guideBadr] ]} (mkGuideEditor None None) [].

(** The editor after Ali was opened, renamed and set to offline. *)
Definition renamingAli : World GuideEditor :=
  editField "status" (js "offline")
    (editField "name" (js "Ali Al-Anazi") (handleEditGuide guideAli roster)).

(** The sign-up form with a confirmation that differs. *)
Definition mistypedSignUp : World TouristPasswordLogin.LoginState :=
  mkWorld ∅
    (TouristPasswordLogin.mkLoginState (js "aisha@example.com") (js "secret1")
       (js "secret2") (js "Aisha") (js "+966500000000")
       TouristPasswordLogin.email true false false)
    [].

(** The sign-in form on the phone tab. *)
Definition signingInByPhone : World TouristPasswordLogin.LoginState :=
  mkWorld ∅
    (TouristPasswordLogin.mkLoginState (js "+966 50 000 0000") (js "secret1")
       [] [] [] TouristPasswordLogin.phone false false false)
    [].

End Sample.

(** * Properties *)

(** ** Strings and traces *)

Lemma falsy_nil (s : jsstring) : falsy s = true <-> s = [].
Proof. destruct s; simpl; split; congruence. Qed.

Lemma falsy_false (s : jsstring) : falsy s = false <-> s <> [].
Proof. destruct s; simpl; split; congruence. Qed.

Lemma truthy_true (s : jsstring) : truthy s = true <-> s <> [].
Proof. unfold truthy. destruct s; simpl; split; congruence. Qed.

Lemma or_else_truthy (a b : jsstring) : a <> [] -> or_else a b = a.
Proof. intros H. unfold or_else. apply truthy_true in H. now rewrite H. Qed.

Lemma str_eqb_eq (a b : jsstring) : str_eqb a b = true <-> a = b.
Proof. unfold str_eqb. apply bool_decide_eq_true. Qed.

Lemma str_eqb_neq (a b : jsstring) : str_eqb a b = false <-> a <> b.
Proof. unfold str_eqb. apply bool_decide_eq_false. Qed.

Lemma requests_app (t1 t2 : list event) :
  requests (t1 ++ t2) = requests t1 ++ requests t2.
Proof. unfold requests. apply omap_app. Qed.

Lemma toasts_app (t1 t2 : list event) :
  toasts (t1 ++ t2) = toasts t1 ++ toasts t2.
Proof. unfold toasts. apply omap_app. Qed.

(** ** Admin login *)

(** C8.  From the logged-out state, [handleLogin] ends logged in exactly
    when the admin id is ['admin'] and the password is ['admin123'].  The
    check is local: no request reaches the backend and its tables are
    untouched.  The right pair is greeted by the success toast; any other
    pair leaves the component state as it was and is told of the failure. *)
Theorem handleLogin_fixed_pair (w : World State) :
  isLoggedIn (ui w) = false ->
  let ok := adminId (ui w) = js "admin" /\ AdminView.password (ui w) = js "admin123" in
  let w' := handleLogin w in
  (isLoggedIn (ui w') = true <-> ok)
  /\ requests (trace w') = requests (trace w)
  /\ db w' = db w
  /\ (ok ->
      ui w' = setIsLoggedIn true (ui w)
      /\ trace w' = trace w
           ++ [Toasted (mkToast (Lit (js "Login Successful"))
                          (Lit (js "Welcome to the Admin Dashboard!")) false)])
  /\ (~ ok ->
      ui w' = ui w
      /\ trace w' = trace w
           ++ [Toasted (mkToast (Lit (js "Login Failed"))
                          (Lit (js "Invalid credentials. Try admin/admin123")) true)]).
Proof.
  intros Hout ok w'. subst w'. unfold handleLogin.
  destruct (str_eqb (adminId (ui w)) (js "admin")) eqn:Ha;
    destruct (str_eqb (AdminView.password (ui w)) (js "admin123")) eqn:Hp;
    cbn [andb].
  1: { apply str_eqb_eq in Ha, Hp.
       assert (Hok : ok) by (split; assumption).
       cbn. rewrite requests_app. cbn. rewrite app_nil_r.
       repeat split; auto; intros; tauto. }
  all: assert (Hno : ~ ok)
         by (intros [Ha' Hp'];
             first [ apply str_eqb_neq in Ha; contradiction
                   | apply str_eqb_neq in Hp; contradiction ]).
  all: cbn; rewrite requests_app; cbn; rewrite app_nil_r.
  all: repeat split; auto; try tauto; exfalso; congruence.
Qed.

(** ** Creating an assignment *)

(** C5.  When one of the five form fields is empty, [handleAssignGuide]
    reports the validation error and stops: the only thing it does is the
    error toast.  No request is issued, the backend tables, the local
    assignments and the form are as before. *)
Theorem handleAssignGuide_validation (insert : reply) (notified : outcome)
    (later : Z) (w : World State) :
  let f := assignForm (ui w) in
  selectedTourist f = [] \/ selectedGuide f = [] \/ AdminView.tourName f = []
    \/ AdminView.startDate f = [] \/ AdminView.endDate f = [] ->
  let w' := handleAssignGuide insert notified later w in
  trace w' = trace w ++ [Toasted (errorToast (js "Please fill in all fields"))]
  /\ requests (trace w') = requests (trace w)
  /\ db w' = db w
  /\ ui w' = ui w
  /\ assignments (ui w') = assignments (ui w)
  /\ assignForm (ui w') = assignForm (ui w).
Proof.
  intros f Hempty w'. subst w'. unfold handleAssignGuide. fold f.
  assert (Hguard : falsy (selectedTourist f) || falsy (selectedGuide f)
                   || falsy (AdminView.tourName f) || falsy (AdminView.startDate f)
                   || falsy (AdminView.endDate f) = true).
  { destruct Hempty as [H | [H | [H | [H | H]]]]; rewrite H; cbn;
      rewrite ?orb_true_r; reflexivity. }
  rewrite Hguard. cbn. rewrite requests_app. cbn. rewrite app_nil_r.
  repeat split; reflexivity.
Qed.

(** ** Dates *)

Lemma split_nonempty (sep : N) (s : jsstring) : split sep s <> [].
Proof.
  destruct s as [|c s]; cbn; [discriminate|].
  destruct (c =? sep)%N; [discriminate|].
  destruct (split sep s); discriminate.
Qed.

(** The first piece of a split is what precedes the first separator. *)
Lemma split_first (sep : N) (a b : jsstring) :
  Forall (fun c => c <> sep) a ->
  split sep (a ++ sep :: b) = a :: split sep b.
Proof.
  induction 1 as [|c a Hc _ IH]; cbn.
  - now rewrite N.eqb_refl.
  - apply N.eqb_neq in Hc. rewrite Hc, IH. reflexivity.
Qed.

Lemma digits_are_digits (width : nat) (n : Z) :
  Forall (fun c => isDigit c = true) (digits width n).
Proof.
  revert n. induction width as [|k IH]; intros n; cbn; [constructor|].
  apply Forall_app. split; [apply IH|].
  constructor; [|constructor].
  assert (H : 0 <= n mod 10 < 10) by (apply Z.mod_pos_bound; lia).
  unfold isDigit. apply andb_true_iff. split; apply N.leb_le; lia.
Qed.

Lemma digit_not_T (c : N) : isDigit c = true -> c <> N_of_ascii "T".
Proof.
  unfold isDigit. intros H ->. vm_compute in H. discriminate.
Qed.

Lemma digits_no_T (width : nat) (n : Z) :
  Forall (fun c => c <> N_of_ascii "T") (digits width n).
Proof.
  eapply Forall_impl; [apply digits_are_digits|]. cbn. apply digit_not_T.
Qed.

Lemma yearString_no_T (y : Z) :
  Forall (fun c => c <> N_of_ascii "T") (yearString y).
Proof.
  unfold yearString. destruct ((0 <=? y) && (y <=? 9999)).
  - apply digits_no_T.
  - apply Forall_app. split; [|apply digits_no_T].
    destruct (y <? 0); repeat constructor; vm_compute; discriminate.
Qed.

Lemma dateString_no_T (day : Z) :
  Forall (fun c => c <> N_of_ascii "T") (dateString day).
Proof.
  unfold dateString. destruct (civil day) as [[y m] d].
  apply Forall_app; split; [apply yearString_no_T|].
  cbn [js app]. constructor; [vm_compute; discriminate|].
  apply Forall_app; split; [apply digits_no_T|].
  constructor; [vm_compute; discriminate|apply digits_no_T].
Qed.

(** The date part of the ISO string is the date of the UTC day. *)
Lemma isoDay_dateString (t : Z) : isoDay t = dateString (Day t).
Proof.
  unfold isoDay, toISOString.
  change (js "T" ++ timeString (TimeWithinDay t) ++ js "Z")
    with (N_of_ascii "T" :: timeString (TimeWithinDay t) ++ js "Z").
  rewrite split_first by apply dateString_no_T. reflexivity.
Qed.


(** ** The store *)

Lemma str_of_union_l (payload r : Row) (col : string) (s : jsstring) :
  payload !! col = Some (VStr s) -> str_of (payload ∪ r) col = s.
Proof.
  intros H. unfold str_of. rewrite lookup_union_l' by (rewrite H; eauto).
  now rewrite H.
Qed.

Lemma str_of_union_r (payload r : Row) (col : string) :
  payload !! col = None -> str_of (payload ∪ r) col = str_of r col.
Proof. intros H. unfold str_of. now rewrite lookup_union_r. Qed.

Lemma rows_of_insert_row (tbl : string) (row : Row) (st : Store) :
  rows_of (insert_row tbl row st) tbl = rows_of st tbl ++ [row].
Proof. unfold insert_row, rows_of at 1. now rewrite lookup_insert_eq. Qed.

Lemma rows_of_insert_row_other (tbl tbl' : string) (row : Row) (st : Store) :
  tbl <> tbl' -> rows_of (insert_row tbl row st) tbl' = rows_of st tbl'.
Proof. intros H. unfold insert_row, rows_of at 1. now rewrite lookup_insert_ne. Qed.

Lemma rows_of_update_rows (tbl : string) (payload : Row) (col : string)
    (v : jsstring) (st : Store) :
  rows_of (update_rows tbl payload col v st) tbl
  = (fun r => if field_is r col v then payload ∪ r else r) <$> rows_of st tbl.
Proof. unfold update_rows, rows_of at 1. now rewrite lookup_insert_eq. Qed.

Lemma rows_of_update_rows_other (tbl tbl' : string) (payload : Row)
    (col : string) (v : jsstring) (st : Store) :
  tbl <> tbl' -> rows_of (update_rows tbl payload col v st) tbl' = rows_of st tbl'.
Proof. intros H. unfold update_rows, rows_of at 1. now rewrite lookup_insert_ne. Qed.

(** ** The assignment reconciler *)

Lemma reassign_guard_passes (r : Reassignment) :
  reassignmentNewGuideId r <> [] -> reassignmentTouristId r <> [] ->
  falsy (reassignmentNewGuideId r) || falsy (reassignmentTouristId r) = false.
Proof.
  intros Hg Ht. apply falsy_false in Hg, Ht. now rewrite Hg, Ht.
Qed.

Lemma withGuideId_frame (g : jsstring) (a : Assignment.t) :
  let a' := Assignment.withGuideId g a in
  Assignment.guideId a' = g
  /\ Assignment.id a' = Assignment.id a
  /\ Assignment.touristId a' = Assignment.touristId a
  /\ Assignment.tourName a' = Assignment.tourName a
  /\ Assignment.startDate a' = Assignment.startDate a
  /\ Assignment.endDate a' = Assignment.endDate a
  /\ Assignment.status a' = Assignment.status a
  /\ Assignment.createdAt a' = Assignment.createdAt a.
Proof. cbn. repeat split. Qed.

(** C1.  A guide and a tourist are selected in the dialog, the tourist has
    an assignment in the local list ([existing] is the first one), and the
    store accepts the write.  Then [handleReassignGuide] issues one
    request, an update of the row with the id of [existing] whose payload
    is [guide_id] alone, so in the store only [guide_id] of that row
    changes.  Locally the copies of that row get the new [guideId] and keep
    [id], [tourName], [startDate], [endDate] and [status]; every entry
    with another id is unchanged, at its place. *)
Theorem handleReassignGuide_existing (generated : Row) (today now later : Z)
    (w : World State) (existing : Assignment.t) :
  let r := reassignment (ui w) in
  let g := reassignmentNewGuideId r in
  g <> [] ->
  reassignmentTouristId r <> [] ->
  List.find (fun a => str_eqb (Assignment.touristId a) (reassignmentTouristId r))
    (assignments (ui w)) = Some existing ->
  let w' := handleReassignGuide (Accepted generated) today now later w in
  requests (trace w')
    = requests (trace w)
      ++ [Update "tour_assignments" {[ "guide_id" := VStr g ]} "id"
            (Assignment.id existing)]
  /\ rows_of (db w') "tour_assignments"
     = (fun row => if field_is row "id" (Assignment.id existing)
                   then <["guide_id" := VStr g]> row else row)
         <$> rows_of (db w) "tour_assignments"
  /\ (forall (row : Row) (col : string),
        col <> "guide_id" -> (<["guide_id" := VStr g]> row) !! col = row !! col)
  /\ assignments (ui w')
     = (fun a => if str_eqb (Assignment.id a) (Assignment.id existing)
                 then Assignment.withGuideId g a else a)
         <$> assignments (ui w)
  /\ In (Assignment.withGuideId g existing) (assignments (ui w'))
  /\ (let a' := Assignment.withGuideId g existing in
      Assignment.guideId a' = g
      /\ Assignment.id a' = Assignment.id existing
      /\ Assignment.tourName a' = Assignment.tourName existing
      /\ Assignment.startDate a' = Assignment.startDate existing
      /\ Assignment.endDate a' = Assignment.endDate existing
      /\ Assignment.status a' = Assignment.status existing)
  /\ (forall (i : nat) (a : Assignment.t),
        assignments (ui w) !! i = Some a ->
        Assignment.id a <> Assignment.id existing ->
        assignments (ui w') !! i = Some a).
Proof.
  intros r g Hg Ht Hfind w'. subst w'. unfold handleReassignGuide.
  fold r. rewrite (reassign_guard_passes r Hg Ht). rewrite Hfind. fold g.
  cbn -[obj update_rows]. rewrite !requests_app. cbn -[obj update_rows].
  rewrite !app_nil_r.
  assert (Hpayload : obj [("guide_id", VStr g)] = {[ "guide_id" := VStr g ]})
    by reflexivity.
  rewrite Hpayload. rewrite rows_of_update_rows.
  split; [reflexivity|].
  split.
  { apply list_fmap_ext. intros _ row _. cbn.
    destruct (field_is row "id" (Assignment.id existing)); [|reflexivity].
    symmetry. apply insert_union_singleton_l. }
  split; [intros row col Hcol; now apply lookup_insert_ne|].
  split; [reflexivity|].
  split.
  { apply find_some in Hfind as [Hin _].
    apply in_map_iff. exists existing. split; [|assumption].
    unfold str_eqb. now rewrite bool_decide_eq_true_2. }
  split; [cbn; repeat split|].
  intros i a Hi Hne. rewrite list_lookup_fmap, Hi. cbn.
  apply str_eqb_neq in Hne. now rewrite Hne.
Qed.

Lemma isoDayOf_valid (v : Z) :
  validTime v = true -> isoDayOf v = Some (dateString (Day v)).
Proof.
  intros Hv. unfold isoDayOf, dateToISOString. rewrite Hv. cbn [fmap option_fmap option_map].
  f_equal. apply isoDay_dateString.
Qed.

Lemma isoDayOf_invalid (v : Z) : validTime v = false -> isoDayOf v = None.
Proof. intros Hv. unfold isoDayOf, dateToISOString. now rewrite Hv. Qed.


(** C2 fails on the code.  The reassignment dialog is open on a tourist
    without an assignment and the clock passes UTC midnight between its two
    readings: [new Date()] reads 2024-02-29T23:59:59.999Z and [Date.now()]
    reads 2024-03-01T00:00:00.000Z.  The one row [handleReassignGuide]
    inserts, and the entry it appends to the local list, start on
    2024-02-29 and end on 2024-03-08, eight days later and not seven. *)
Lemma handleReassignGuide_new_across_midnight :
  let w := Sample.assigningFirstGuide in
  let w' := handleReassignGuide (Accepted {[ "id" := VStr (js "a9") ]})
              Sample.beforeMidnight Sample.midnight (Sample.midnight + 250) w in
  toISOString Sample.beforeMidnight = js "2024-02-29T23:59:59.999Z"
  /\ toISOString Sample.midnight = js "2024-03-01T00:00:00.000Z"
  /\ List.find (fun a => str_eqb (Assignment.touristId a)
                           (reassignmentTouristId (reassignment (ui w))))
       (assignments (ui w)) = None
  /\ requests (trace w')
     = [Insert "tour_assignments"
          (obj [("tourist_id", VStr (js "t2"));
                ("guide_id", VStr (js "g3"));
                ("tour_name", VStr (js "AlUla Heritage Tour"));
                ("start_date", VStr (js "2024-02-29"));
                ("end_date", VStr (js "2024-03-08"));
                ("status", VStr (js "active"))])]
  /\ assignments (ui w')
     = [formatAssignment Sample.activeWithAli;
        Assignment.mk (js "a9") (js "t2") (js "g3") (js "AlUla Heritage Tour")
          (js "2024-02-29") (js "2024-03-08") (js "active")
          (js "2024-03-01T00:00:00.250Z")]
  /\ dateString (Day Sample.beforeMidnight + 7) = js "2024-03-07"
  /\ dateString (Day Sample.beforeMidnight + 8) = js "2024-03-08".
Proof.
  cbv zeta. repeat split; vm_compute; reflexivity.
Qed.

(** Without a guide or a tourist selected the reconciler only asks for a
    guide: no request, no change. *)
Lemma handleReassignGuide_nothing_selected (write : reply) (today now later : Z)
    (w : World State) :
  reassignmentNewGuideId (reassignment (ui w)) = []
    \/ reassignmentTouristId (reassignment (ui w)) = [] ->
  handleReassignGuide write today now later w
  = toast (errorToast (js "Please select a new guide")) w.
Proof.
  intros H. unfold handleReassignGuide.
  destruct H as [H|H]; rewrite H; cbn; rewrite ?orb_true_r; reflexivity.
Qed.

(** Store first, then patch: a refused write leaves the tables, the local
    assignments and the dialog as they were, and is reported. *)
Lemma handleReassignGuide_refused (message : jsstring) (today now later : Z)
    (w : World State) :
  let w' := handleReassignGuide (Refused message) today now later w in
  db w' = db w
  /\ ui w' = ui w
  /\ exists t, toasts (trace w') = toasts (trace w) ++ [t] /\ destructive t = true.
Proof.
  cbv zeta. unfold handleReassignGuide.
  destruct (falsy _ || falsy _).
  - cbn. rewrite toasts_app. repeat split. eexists. split; reflexivity.
  - destruct (List.find _ _); [|destruct (isoDayOf _)];
      cbn -[obj]; rewrite !toasts_app; cbn -[obj];
      rewrite ?app_nil_r; repeat split; eexists; split; reflexivity.
Qed.

(** ** Creating an assignment: the notification *)

Lemma assign_guard_passes (f : AssignForm) :
  selectedTourist f <> [] -> selectedGuide f <> [] -> AdminView.tourName f <> [] ->
  AdminView.startDate f <> [] -> AdminView.endDate f <> [] ->
  falsy (selectedTourist f) || falsy (selectedGuide f) || falsy (AdminView.tourName f)
    || falsy (AdminView.startDate f) || falsy (AdminView.endDate f) = false.
Proof.
  intros H1 H2 H3 H4 H5. apply falsy_false in H1, H2, H3, H4, H5.
  now rewrite H1, H2, H3, H4, H5.
Qed.

(** C6.  The five form fields are filled, the store accepts the insert and
    the notification call fails, by returning an error or by throwing.
    The assignment is created all the same: the row, with status [active],
    is in the table, its copy is appended to the local list, the form is
    cleared, and the only toast is the one of the created assignment.
    Component state, tables and toasts are those of a run whose
    notification succeeded. *)
Theorem handleAssignGuide_notification_failure (generated : Row)
    (notified : outcome) (later : Z) (w : World State) :
  let f := assignForm (ui w) in
  selectedTourist f <> [] -> selectedGuide f <> [] -> AdminView.tourName f <> [] ->
  AdminView.startDate f <> [] -> AdminView.endDate f <> [] ->
  notified <> Returned ->
  let w' := handleAssignGuide (Accepted generated) notified later w in
  let wok := handleAssignGuide (Accepted generated) Returned later w in
  let row := obj [("tourist_id", VStr (selectedTourist f));
                  ("guide_id", VStr (selectedGuide f));
                  ("tour_name", VStr (AdminView.tourName f));
                  ("start_date", VStr (AdminView.startDate f));
                  ("end_date", VStr (AdminView.endDate f));
                  ("status", VStr (js "active"))] in
  rows_of (db w') "tour_assignments"
    = rows_of (db w) "tour_assignments" ++ [row ∪ generated]
  /\ (row ∪ generated) !! "status" = Some (VStr (js "active"))
  /\ assignments (ui w')
     = assignments (ui w)
       ++ [Assignment.mk (str_of generated "id") (selectedTourist f)
             (selectedGuide f) (AdminView.tourName f) (AdminView.startDate f)
             (AdminView.endDate f) (js "active") (toISOString later)]
  /\ assignForm (ui w') = clearedAssignForm
  /\ toasts (trace w')
     = toasts (trace w)
       ++ [mkToast (Lit (js "Assignment Created"))
             (Lit (js "Tour guide assigned successfully and notifications sent!"))
             false]
  /\ ui w' = ui wok
  /\ db w' = db wok
  /\ toasts (trace w') = toasts (trace wok).
Proof.
  intros f H1 H2 H3 H4 H5 Hfail w' wok row. subst w' wok.
  unfold handleAssignGuide. fold f.
  rewrite (assign_guard_passes f H1 H2 H3 H4 H5).
  change (obj [("tourist_id", _); _; _; _; _; _]) with row.
  rewrite (str_of_union_r row generated "id") by reflexivity.
  destruct notified as [| message | message]; [congruence | |];
    cbn -[row insert_row obj]; rewrite !toasts_app; cbn -[row insert_row obj];
    rewrite !app_nil_r, rows_of_insert_row;
    (repeat split; try reflexivity);
    (rewrite lookup_union_l' by (eexists; reflexivity)); reflexivity.
Qed.

(** ** Creating a guide *)

Lemma guide_guard_passes (f : GuideForm) :
  newGuideName f <> [] -> newGuideEmail f <> [] -> newGuidePhone f <> [] ->
  newGuideId f <> [] -> newGuidePassword f <> [] ->
  falsy (newGuideName f) || falsy (newGuideEmail f) || falsy (newGuidePhone f)
    || falsy (newGuideId f) || falsy (newGuidePassword f) = false.
Proof.
  intros H1 H2 H3 H4 H5. apply falsy_false in H1, H2, H3, H4, H5.
  now rewrite H1, H2, H3, H4, H5.
Qed.

(** The guard on the empty input changes nothing: the empty string splits
    into one empty piece, which is dropped. *)
Lemma specializationsOf_unguarded (input : jsstring) :
  specializationsOf input
  = List.filter truthy (List.map trim (split (N_of_ascii ",") input)).
Proof. unfold specializationsOf. destruct input; reflexivity. Qed.

(** The pieces of a split, joined by the separator, are the string. *)
Lemma split_join (sep : N) (s : jsstring) :
  foldr (fun piece rest =>
           match rest with
           | None => Some piece
           | Some joined => Some (piece ++ sep :: joined)
           end) None (split sep s) = Some s.
Proof.
  induction s as [|c s IH]; cbn; [reflexivity|].
  destruct (N.eqb_spec c sep) as [->|Hne].
  - cbn. now rewrite IH.
  - destruct (split sep s) as [|x xs] eqn:Hs; [now apply split_nonempty in Hs|].
    cbn in *. destruct (foldr _ None xs); congruence.
Qed.

Lemma split_pieces_without_sep (sep : N) (s : jsstring) :
  Forall (Forall (fun c => c <> sep)) (split sep s).
Proof.
  induction s as [|c s IH]; cbn; [repeat constructor|].
  destruct (N.eqb_spec c sep) as [->|Hne]; [constructor; [constructor|exact IH]|].
  destruct (split sep s) as [|x xs]; [repeat constructor; assumption|].
  inversion IH; subst. constructor; [constructor|]; assumption.
Qed.

Lemma trimStart_suffix (s : jsstring) : exists p, s = p ++ trimStart s.
Proof.
  induction s as [|c s [p IH]]; [now exists []|]. cbn.
  destruct (isWhiteSpace c); [|now exists []].
  exists (c :: p). cbn. now rewrite <- IH.
Qed.

Lemma trimStart_head (s : jsstring) (c : N) :
  head (trimStart s) = Some c -> isWhiteSpace c = false.
Proof.
  induction s as [|x s IH]; cbn; [discriminate|].
  destruct (isWhiteSpace x) eqn:Hx; [exact IH|]. cbn. congruence.
Qed.

Lemma trimEnd_prefix (s : jsstring) : exists q, s = trimEnd s ++ q.
Proof.
  unfold trimEnd. destruct (trimStart_suffix (reverse s)) as [p Hp].
  exists (reverse p). rewrite <- reverse_app, <- Hp. now rewrite reverse_involutive.
Qed.

Lemma trim_head (s : jsstring) (c : N) :
  head (trim s) = Some c -> isWhiteSpace c = false.
Proof.
  unfold trim. destruct (trimEnd_prefix (trimStart s)) as [q Hq].
  intros Hc. apply (trimStart_head s). rewrite Hq.
  destruct (trimEnd (trimStart s)); [discriminate|exact Hc].
Qed.

Lemma trim_last (s : jsstring) (c : N) :
  last (trim s) = Some c -> isWhiteSpace c = false.
Proof.
  unfold trim, trimEnd. rewrite last_reverse. apply trimStart_head.
Qed.

Lemma trim_Forall (P : N -> Prop) (s : jsstring) : Forall P s -> Forall P (trim s).
Proof.
  intros H. unfold trim.
  destruct (trimStart_suffix s) as [p Hp]. rewrite Hp in H.
  apply Forall_app in H as [_ H].
  destruct (trimEnd_prefix (trimStart s)) as [q Hq]. rewrite Hq in H.
  now apply Forall_app in H as [H _].
Qed.


Lemma specializations_trimmed (input : jsstring) :
  Forall trimmedEntry
    (List.filter truthy (List.map trim (split (N_of_ascii ",") input))).
Proof.
  apply List.Forall_forall. intros s Hs.
  apply filter_In in Hs as [Hin Hne].
  apply in_map_iff in Hin as [piece [<- Hpiece]].
  repeat split.
  - now apply truthy_true.
  - apply trim_head.
  - apply trim_last.
  - apply trim_Forall.
    pose proof (split_pieces_without_sep (N_of_ascii ",") input) as Hall.
    rewrite List.Forall_forall in Hall. now apply Hall.
Qed.

(** C7.  The specializations of a new guide are the comma-separated pieces
    of the input, each trimmed, without the empty ones; the input
    ["Desert, Night Tour, "] gives [["Desert"; "Night Tour"]].  With the
    required fields filled, [handleCreateGuide] issues one request, the
    insert of a guide row carrying these specializations and rating 0, and
    the stored row has them when the store accepts it. *)
Theorem handleCreateGuide_specializations (insert : reply) (w : World State) :
  let f := guideForm (ui w) in
  newGuideName f <> [] -> newGuideEmail f <> [] -> newGuidePhone f <> [] ->
  newGuideId f <> [] -> newGuidePassword f <> [] ->
  let w' := handleCreateGuide insert w in
  let specializations :=
    List.filter truthy
      (List.map trim (split (N_of_ascii ",") (newGuideSpecializations f))) in
  specializationsOf (js "Desert, Night Tour, ") = [js "Desert"; js "Night Tour"]
  /\ Forall trimmedEntry specializations
  /\ exists row : Row,
       requests (trace w') = requests (trace w) ++ [Insert "guides" row]
       /\ row !! "specializations" = Some (VArr specializations)
       /\ row !! "rating" = Some (VNum 0)
       /\ forall generated : Row,
            insert = Accepted generated ->
            rows_of (db w') "guides" = rows_of (db w) "guides" ++ [row ∪ generated]
            /\ (row ∪ generated) !! "specializations" = Some (VArr specializations)
            /\ (row ∪ generated) !! "rating" = Some (VNum 0).
Proof.
  intros f H1 H2 H3 H4 H5 w' specializations. subst w'.
  split; [reflexivity|].
  split; [apply specializations_trimmed|].
  unfold handleCreateGuide. fold f.
  rewrite (guide_guard_passes f H1 H2 H3 H4 H5).
  rewrite specializationsOf_unguarded. fold specializations.
  match goal with |- context [Insert "guides" ?r] => set (row := r) end.
  exists row.
  split.
  { destruct insert; cbn -[row insert_row]; rewrite !requests_app;
      cbn -[row insert_row]; now rewrite !app_nil_r. }
  split; [reflexivity|]. split; [reflexivity|].
  intros generated ->. cbn -[row insert_row]. rewrite rows_of_insert_row.
  repeat split; try reflexivity;
    (rewrite lookup_union_l' by (eexists; reflexivity)); reflexivity.
Qed.

(** ** Guide request triage *)



Lemma updateData_status (status : Decision) (guideId response : option jsstring) :
  updateData status guideId response !! "status"
  = Some (VStr (decisionString status)).
Proof.
  unfold updateData.
  destruct status, guideId as [g|], response; try reflexivity;
    destruct (truthy g); reflexivity.
Qed.

(** [assigned_guide_id] is in the payload exactly on an approval with a
    guide id, and then it is that id. *)
Lemma updateData_assigned_guide (status : Decision) (guideId response : option jsstring) :
  updateData status guideId response !! "assigned_guide_id"
  = match status, guideId with
    | approved, Some g => if truthy g then Some (VStr g) else None
    | _, _ => None
    end.
Proof.
  unfold updateData.
  destruct status, guideId as [g|], response; try reflexivity;
    destruct (truthy g); reflexivity.
Qed.

(** C4, as amended.  Responding [rejected] issues one request, an update
    of the request row whose payload has the status [rejected] and no
    [assigned_guide_id], whatever guide id is passed along.  When the store
    accepts it, the row has status [rejected] and its [assigned_guide_id]
    is what it was before: unset stays unset and a set value stays set.
    In general the payload carries [assigned_guide_id] exactly when the
    response is [approved] and comes with a non-empty guide id. *)
Theorem handleRequestResponse_rejected (generated : Row) (requestId : jsstring)
    (guideId response : option jsstring) (w : World State) :
  let payload := updateData rejected guideId response in
  let w' := handleRequestResponse (Accepted generated) requestId rejected
              guideId response w in
  requests (trace w')
    = requests (trace w) ++ [Update "guide_requests" payload "id" requestId]
  /\ payload !! "status" = Some (VStr (js "rejected"))
  /\ payload !! "assigned_guide_id" = None
  /\ rows_of (db w') "guide_requests"
     = (fun row => if field_is row "id" requestId then payload ∪ row else row)
         <$> rows_of (db w) "guide_requests"
  /\ (forall row : Row,
        (payload ∪ row) !! "status" = Some (VStr (js "rejected"))
        /\ (payload ∪ row) !! "assigned_guide_id" = row !! "assigned_guide_id")
  /\ (forall (status : Decision) (gid resp : option jsstring),
        is_Some (updateData status gid resp !! "assigned_guide_id")
        <-> status = approved /\ exists g, gid = Some g /\ g <> [])
  /\ (forall (g : jsstring) (resp : option jsstring),
        g <> [] ->
        updateData approved (Some g) resp !! "assigned_guide_id" = Some (VStr g)).
Proof.
  intros payload w'. subst w'.
  assert (Hs : payload !! "status" = Some (VStr (js "rejected")))
    by apply updateData_status.
  assert (Hg : payload !! "assigned_guide_id" = None)
    by (subst payload; rewrite updateData_assigned_guide; reflexivity).
  unfold handleRequestResponse. fold payload.
  cbn -[payload update_rows]. rewrite !requests_app. cbn -[payload update_rows].
  rewrite !app_nil_r, rows_of_update_rows.
  split; [reflexivity|]. split; [exact Hs|]. split; [exact Hg|].
  split; [reflexivity|].
  split.
  { intros row. split.
    - rewrite lookup_union_l' by (rewrite Hs; eauto). exact Hs.
    - now apply lookup_union_r. }
  split.
  { intros status gid resp. rewrite updateData_assigned_guide.
    destruct status, gid as [g|]; cbn.
    - destruct (truthy g) eqn:Hg'.
      + apply truthy_true in Hg'. split; [eauto 6|intros _; eauto].
      + split; [intros [? ?]; discriminate|].
        intros [_ [g' [[= <-] Hne]]]. apply truthy_true in Hne. congruence.
    - split; [intros [? ?]; discriminate|intros [_ [g [? _]]]; discriminate].
    - split; [intros [? ?]; discriminate|intros [? _]; discriminate].
    - split; [intros [? ?]; discriminate|intros [? _]; discriminate]. }
  intros g resp Hne.
  etransitivity; [apply (updateData_assigned_guide approved (Some g) resp)|].
  apply truthy_true in Hne. now rewrite Hne.
Qed.

(** C4, as stated, fails: a pending request that names guide [g1] is
    rejected, with the arguments of the reject button; the stored row is
    then rejected and still names [g1]. *)
Lemma handleRequestResponse_rejected_keeps_guide :
  let w' := handleRequestResponse (Accepted ∅) (js "r1") rejected None
              (Some (js "Sorry, no guides available at this time."))
              Sample.triage in
  rows_of (db Sample.triage) "guide_requests" = [Sample.requestWithGuide]
  /\ Sample.requestWithGuide !! "assigned_guide_id" = Some (VStr (js "g1"))
  /\ exists row' : Row,
       rows_of (db w') "guide_requests" = [row']
       /\ row' !! "id" = Some (VStr (js "r1"))
       /\ row' !! "status" = Some (VStr (js "rejected"))
       /\ row' !! "assigned_guide_id" = Some (VStr (js "g1"))
       /\ ~ unset (row' !! "assigned_guide_id").
Proof.
  cbn zeta. split; [reflexivity|]. split; [reflexivity|].
  exists (updateData rejected None
            (Some (js "Sorry, no guides available at this time."))
          ∪ Sample.requestWithGuide).
  split; [reflexivity|].
  split; [reflexivity|]. split; [reflexivity|]. split; [reflexivity|].
  intros [H|H]; discriminate H.
Qed.

(** ** The derived status of a tourist *)

Lemma assignmentMap_fold_other (k : jsstring) (rows : list Row)
    (acc : gmap jsstring MapEntry) :
  (forall b, In b rows -> str_of b "tourist_id" <> k) ->
  foldl (fun acc assignment =>
           <[str_of assignment "tourist_id" := entryOf assignment]> acc)
    acc rows !! k = acc !! k.
Proof.
  revert acc. induction rows as [|b rows IH]; intros acc Hall; cbn; [reflexivity|].
  rewrite IH by (intros; apply Hall; now right).
  apply lookup_insert_ne. apply Hall. now left.
Qed.

(** No fetched row of the tourist: no entry. *)
Lemma assignmentMap_none (k : jsstring) (rows : list Row) :
  (forall b, In b rows -> str_of b "tourist_id" <> k) ->
  assignmentMap rows !! k = None.
Proof.
  intros Hall. unfold assignmentMap.
  now rewrite assignmentMap_fold_other.
Qed.

(** The entry of a tourist is the one of the last fetched row of that
    tourist. *)
Lemma assignmentMap_last (pre post : list Row) (a : Row) :
  (forall b, In b post -> str_of b "tourist_id" <> str_of a "tourist_id") ->
  assignmentMap (pre ++ a :: post) !! str_of a "tourist_id" = Some (entryOf a).
Proof.
  intros Hall. unfold assignmentMap.
  rewrite foldl_app. cbn. rewrite assignmentMap_fold_other by assumption.
  apply lookup_insert_eq.
Qed.

(** What [formatTourist] derives from the entry of the tourist. *)
Lemma formatTourist_status (m : gmap jsstring MapEntry) (profile : Row) :
  Tourist.status (formatTourist m profile)
  = match m !! str_of profile "id" with
    | Some e =>
        if bool_decide (entryStatus e = js "active") then Tourist.assigned
        else if bool_decide (entryStatus e = js "pending") then Tourist.pending
        else Tourist.active
    | None => Tourist.active
    end.
Proof.
  unfold formatTourist. cbn [Tourist.status].
  destruct (m !! str_of profile "id") as [e|]; cbn -[js]; [|reflexivity].
  destruct (decide (entryStatus e = js "active")) as [He|He].
  - rewrite !bool_decide_eq_true_2; congruence.
  - rewrite (bool_decide_eq_false_2 (Some _ = Some (js "active"))) by congruence.
    rewrite (bool_decide_eq_false_2 (entryStatus e = js "active")) by congruence.
    destruct (decide (entryStatus e = js "pending")) as [Hp|Hp].
    + rewrite !bool_decide_eq_true_2; congruence.
    + rewrite !bool_decide_eq_false_2; congruence.
Qed.

Lemma formatTourist_assignedGuide (m : gmap jsstring MapEntry) (profile : Row) :
  Tourist.assignedGuide (formatTourist m profile)
  = match m !! str_of profile "id" with
    | Some e => entryGuide e
    | None => []
    end.
Proof.
  unfold formatTourist. cbn [Tourist.assignedGuide].
  destruct (m !! str_of profile "id") as [e|]; cbn; [|reflexivity].
  unfold or_else. destruct (entryGuide e); reflexivity.
Qed.

Lemma select_in_status (rows : list Row) (b : Row) :
  In b (select_in "status" [js "pending"; js "active"] rows) ->
  In b rows /\ (str_of b "status" = js "pending" \/ str_of b "status" = js "active").
Proof.
  unfold select_in. intros H. apply filter_In in H as [Hin Hst].
  split; [assumption|].
  cbn in Hst. unfold field_is, str_of in *.
  destruct (b !! "status") as [[| s | | |]|]; try discriminate.
  rewrite orb_false_r in Hst. apply orb_true_iff in Hst as [H|H];
    apply str_eqb_eq in H; auto.
Qed.

(** C3, as amended.  [fetchTourists] replaces the tourists by the fetched
    profiles, formatted.  A profile none of whose assignment rows is
    pending or active gets the status [active] and no guide.  Otherwise
    status and guide come from the last fetched row of the tourist, in the
    fetched order: [assigned] when that row is active, [pending] when it is
    pending, and as guide the guide name of that row, or ['Unknown Guide']
    when the row has no guide name or an empty one. *)
Theorem fetchTourists_derived_status (profilesData rows : list Row)
    (w : World State) (profile : Row) :
  let fetched := select_in "status" [js "pending"; js "active"] rows in
  let w' := fetchTourists (Data profilesData) (Data fetched) w in
  let tourist := formatTourist (assignmentMap fetched) profile in
  tourists (ui w') = formatTourist (assignmentMap fetched) <$> profilesData
  /\ ((forall a, In a rows ->
         str_of a "tourist_id" = str_of profile "id" ->
         str_of a "status" <> js "pending" /\ str_of a "status" <> js "active") ->
      Tourist.status tourist = Tourist.active
      /\ Tourist.assignedGuide tourist = [])
  /\ (forall (pre post : list Row) (a : Row),
        fetched = pre ++ a :: post ->
        str_of a "tourist_id" = str_of profile "id" ->
        (forall b, In b post -> str_of b "tourist_id" <> str_of profile "id") ->
        (str_of a "status" = js "active" ->
         Tourist.status tourist = Tourist.assigned)
        /\ (str_of a "status" = js "pending" ->
            Tourist.status tourist = Tourist.pending)
        /\ Tourist.assignedGuide tourist
           = or_else (guideName a) (js "Unknown Guide")
        /\ (guideName a <> [] -> Tourist.assignedGuide tourist = guideName a)).
Proof.
  intros fetched w' tourist. subst w' tourist.
  split; [reflexivity|]. split.
  - intros Hnone.
    rewrite formatTourist_status, formatTourist_assignedGuide.
    rewrite assignmentMap_none; [split; reflexivity|].
    intros b Hb Hid. apply select_in_status in Hb as [Hin Hst].
    destruct (Hnone b Hin Hid) as [Hp Ha]. tauto.
  - intros pre post a Hfetched Hid Hpost.
    rewrite formatTourist_status, formatTourist_assignedGuide.
    rewrite Hfetched, <- Hid.
    rewrite assignmentMap_last by (intros b Hb; rewrite Hid; now apply Hpost).
    cbn -[js].
    split; [intros ->; reflexivity|].
    split; [intros ->; reflexivity|].
    split; [reflexivity|].
    intros Hname. now apply or_else_truthy.
Qed.

(** C3, as stated, fails: the tourist has an active row with guide Ali and
    a later pending row with guide Badr, both fetched.  The active row is
    an assignment of the tourist with status [active], yet the derived
    status is [pending] and the guide is Badr. *)
Lemma fetchTourists_active_row_not_assigned :
  let rows := [Sample.activeWithAli; Sample.pendingWithBadr] in
  let fetched := select_in "status" [js "pending"; js "active"] rows in
  let w' := fetchTourists (Data [Sample.aisha]) (Data fetched) Sample.reassigning in
  fetched = rows
  /\ str_of Sample.activeWithAli "tourist_id" = str_of Sample.aisha "id"
  /\ str_of Sample.activeWithAli "status" = js "active"
  /\ guideName Sample.activeWithAli = js "Ali"
  /\ tourists (ui w')
     = [Tourist.mk (js "t1") (js "Aisha") (js "aisha@example.com")
          (js "aisha@example.com") (js "Saudi") Tourist.pending (js "Badr")]
  /\ ~ (forall t, In t (tourists (ui w')) ->
          Tourist.status t = Tourist.assigned
          /\ Tourist.assignedGuide t = guideName Sample.activeWithAli).
Proof.
  cbn zeta.
  assert (Hfetched : select_in "status" [js "pending"; js "active"]
                       [Sample.activeWithAli; Sample.pendingWithBadr]
                     = [Sample.activeWithAli; Sample.pendingWithBadr])
    by reflexivity.
  rewrite Hfetched.
  assert (Htourists :
    tourists (ui (fetchTourists (Data [Sample.aisha])
                    (Data [Sample.activeWithAli; Sample.pendingWithBadr])
                    Sample.reassigning))
    = [Tourist.mk (js "t1") (js "Aisha") (js "aisha@example.com")
         (js "aisha@example.com") (js "Saudi") Tourist.pending (js "Badr")])
    by (vm_compute; reflexivity).
  rewrite Htourists.
  split; [reflexivity|]. split; [reflexivity|]. split; [reflexivity|].
  split; [reflexivity|]. split; [reflexivity|].
  intros H. destruct (H _ (or_introl eq_refl)) as [Hst _]. discriminate.
Qed.

(** ** Which assignment is the current one *)

(** [find] returns the first element that satisfies the test. *)
Lemma find_first {A : Type} (f : A -> bool) (l : list A) (x : A) :
  List.find f l = Some x ->
  exists pre post,
    l = pre ++ x :: post /\ f x = true /\ forall b, In b pre -> f b = false.
Proof.
  induction l as [|y l IH]; cbn; [discriminate|].
  destruct (f y) eqn:Hy.
  - intros [= ->]. exists [], l. repeat split; [assumption|]. intros b [].
  - intros Hfind. destruct (IH Hfind) as (pre & post & -> & Hx & Hpre).
    exists (y :: pre), post. repeat split; [assumption|].
    intros b [<-|Hb]; [assumption|now apply Hpre].
Qed.

(** C10.  The tourist fetcher takes the status and the guide of a tourist
    from the last fetched assignment row of that tourist: building the map
    is a fold in which a later row overwrites the entry of an earlier one.
    The reconciler takes the first assignment of the tourist in the local
    list and updates the row with that id.  On the same two rows, in the
    same order, the fetcher follows the second row and the reconciler
    updates the first. *)
Theorem status_from_last_row_reassign_first_row :
  (forall (fetched pre post : list Row) (a profile : Row),
      fetched = pre ++ a :: post ->
      str_of a "tourist_id" = str_of profile "id" ->
      (forall b, In b post -> str_of b "tourist_id" <> str_of profile "id") ->
      let tourist := formatTourist (assignmentMap fetched) profile in
      assignmentMap fetched !! str_of profile "id" = Some (entryOf a)
      /\ Tourist.status tourist
         = (if bool_decide (str_of a "status" = js "active") then Tourist.assigned
            else if bool_decide (str_of a "status" = js "pending") then Tourist.pending
            else Tourist.active)
      /\ Tourist.assignedGuide tourist = or_else (guideName a) (js "Unknown Guide"))
  /\ (forall (write : reply) (today now later : Z) (w : World State)
        (existing : Assignment.t),
      let r := reassignment (ui w) in
      reassignmentNewGuideId r <> [] ->
      reassignmentTouristId r <> [] ->
      List.find (fun a => str_eqb (Assignment.touristId a) (reassignmentTouristId r))
        (assignments (ui w)) = Some existing ->
      (exists pre post,
         assignments (ui w) = pre ++ existing :: post
         /\ Assignment.touristId existing = reassignmentTouristId r
         /\ forall b, In b pre -> Assignment.touristId b <> reassignmentTouristId r)
      /\ requests (trace (handleReassignGuide write today now later w))
         = requests (trace w)
           ++ [Update "tour_assignments"
                 {[ "guide_id" := VStr (reassignmentNewGuideId r) ]} "id"
                 (Assignment.id existing)])
  /\ (let rows := [Sample.activeWithAli; Sample.pendingWithBadr] in
      let w := Sample.reassigning in
      assignments (ui w) = formatAssignment <$> rows
      /\ tourists (ui (fetchTourists (Data [Sample.aisha]) (Data rows) w))
         = [formatTourist (assignmentMap [Sample.pendingWithBadr]) Sample.aisha]
      /\ Tourist.status (formatTourist (assignmentMap rows) Sample.aisha)
         = Tourist.pending
      /\ Tourist.assignedGuide (formatTourist (assignmentMap rows) Sample.aisha)
         = js "Badr"
      /\ requests (trace (handleReassignGuide (Accepted ∅) 0 0 0 w))
         = [Update "tour_assignments" {[ "guide_id" := VStr (js "g3") ]} "id"
              (str_of Sample.activeWithAli "id")]
      /\ str_of Sample.activeWithAli "id" <> str_of Sample.pendingWithBadr "id").
Proof.
  split; [|split].
  - intros fetched pre post a profile -> Hid Hpost tourist. subst tourist.
    rewrite formatTourist_status, formatTourist_assignedGuide.
    rewrite <- Hid.
    rewrite assignmentMap_last by (intros b Hb; rewrite Hid; now apply Hpost).
    repeat split.
  - intros write today now later w existing r Hg Ht Hfind.
    split.
    + destruct (find_first _ _ _ Hfind) as (pre & post & Hl & Hx & Hpre).
      exists pre, post. split; [assumption|].
      split; [now apply str_eqb_eq|].
      intros b Hb. apply str_eqb_neq. now apply Hpre.
    + unfold handleReassignGuide. fold r.
      rewrite (reassign_guard_passes r Hg Ht), Hfind.
      destruct write as [generated|message];
        cbn -[obj update_rows]; rewrite !requests_app; cbn -[obj update_rows];
        now rewrite !app_nil_r.
  - cbn zeta. split; [reflexivity|].
    split; [vm_compute; reflexivity|].
    split; [vm_compute; reflexivity|].
    split; [vm_compute; reflexivity|].
    split; [vm_compute; reflexivity|].
    vm_compute. discriminate.
Qed.

(** ** Tourist sign-up *)

Import TouristPasswordLogin.

(** Valid input passes without a toast. *)
Lemma validateInput_valid (w : World LoginState) :
  fst (validateInput w) = true -> validateInput w = (true, w).
Proof.
  unfold validateInput, invalid.
  repeat match goal with
         | |- context [if ?c then _ else _] => destruct c; cbn [fst]
         | |- context [match method ?s with phone => _ | email => _ end] =>
             destruct (method s)
         end;
    intros H; try discriminate H; reflexivity.
Qed.

(** C9.  The input is valid and the sign-up returns a user and a session.
    Then [handleSignUp] upserts a profile row with the id of the new user,
    [user_type] ['tourist'], the trimmed full name and the trimmed phone
    number.  However the upsert ends, the account-created toast is shown
    and the login callback is called with the user and the session; a
    failed upsert adds one console error to the trace and nothing else. *)
Theorem handleSignUp_upserts_tourist_profile (origin userId sess : jsstring)
    (upserted : outcome) (w : World LoginState) :
  fst (validateInput w) = true ->
  let s := ui w in
  let w' := handleSignUp origin (Data (mkSignUpData (Some userId) (Some sess)))
              upserted w in
  let row := profileData userId s in
  row !! "id" = Some (VStr userId)
  /\ row !! "user_type" = Some (VStr (js "tourist"))
  /\ row !! "full_name" = Some (VStr (trim (fullName s)))
  /\ row !! "phone_number" = Some (VStr (trim (phoneNumber s)))
  /\ trace w'
     = trace w
       ++ [Request (SignUp (identifier s) (password s) (origin ++ js "/")
                      (obj [("user_type", VStr (js "tourist"));
                            ("full_name", VStr (trim (fullName s)));
                            ("phone_number", VStr (trim (phoneNumber s)))]));
           Request (Upsert "profiles" row)]
       ++ match upserted with
          | Returned => []
          | ReturnedError profileError =>
              [ConsoleError "Error creating profile:" profileError]
          | Threw profileError =>
              [ConsoleError "Profile creation failed:" profileError]
          end
       ++ [Toasted (mkToast (Tr "accountCreated") (Tr "welcomeTourist") false);
           LoginSuccess userId sess]
  /\ ui w' = setLoading false s
  /\ db w' = match upserted with
             | Returned => upsert_row "profiles" row (db w)
             | _ => db w
             end.
Proof.
  intros Hvalid s w' row. subst w'. unfold handleSignUp.
  rewrite (validateInput_valid w Hvalid). cbn [negb]. fold s. fold row.
  split; [reflexivity|]. split; [reflexivity|].
  split; [reflexivity|]. split; [reflexivity|].
  destruct upserted; cbn -[row obj upsert_row];
    rewrite <- ?app_assoc; cbn -[row obj upsert_row];
    repeat split; reflexivity.
Qed.

(** * The properties at the sample data *)

Lemma handleLogin_fixed_pair_witness :
  isLoggedIn (ui Sample.loggingIn) = false
  /\ isLoggedIn (ui (handleLogin Sample.loggingIn)) = true
  /\ requests (trace (handleLogin Sample.loggingIn)) = [].
Proof.
  pose proof (handleLogin_fixed_pair Sample.loggingIn eq_refl) as H.
  cbv zeta in H. destruct H as (Hiff & Hreq & _).
  split; [reflexivity|]. split; [|exact Hreq].
  apply Hiff. split; reflexivity.
Defined.

Lemma handleAssignGuide_validation_witness :
  AdminView.tourName (assignForm (ui Sample.assigningWithoutTourName)) = []
  /\ let w' := handleAssignGuide (Accepted ∅) Returned 0
                 Sample.assigningWithoutTourName in
     trace w' = [Toasted (errorToast (js "Please fill in all fields"))]
     /\ requests (trace w') = []
     /\ db w' = db Sample.assigningWithoutTourName
     /\ ui w' = ui Sample.assigningWithoutTourName.
Proof.
  split; [reflexivity|]. cbv zeta.
  pose proof (handleAssignGuide_validation (Accepted ∅) Returned 0
                Sample.assigningWithoutTourName) as H.
  cbv zeta in H.
  destruct (H (or_intror (or_intror (or_introl eq_refl))))
    as (Htrace & Hreq & Hdb & Hui & _).
  repeat split; assumption.
Defined.

Lemma handleReassignGuide_existing_witness :
  let w := Sample.reassigning in
  let w' := handleReassignGuide (Accepted ∅) 0 0 0 w in
  reassignmentNewGuideId (reassignment (ui w)) = js "g3"
  /\ reassignmentTouristId (reassignment (ui w)) = js "t1"
  /\ requests (trace w')
     = [Update "tour_assignments" {[ "guide_id" := VStr (js "g3") ]} "id" (js "a1")]
  /\ assignments (ui w')
     = [Assignment.mk (js "a1") (js "t1") (js "g3") (js "Hegra at dawn")
          (js "2025-03-01") (js "2025-03-03") (js "active")
          (js "2025-02-20T08:00:00.000Z");
        formatAssignment Sample.pendingWithBadr]
  /\ rows_of (db w') "tour_assignments"
     = [<["guide_id" := VStr (js "g3")]> Sample.activeWithAli;
        Sample.pendingWithBadr].
Proof.
  cbv zeta.
  pose proof (handleReassignGuide_existing ∅ 0 0 0 Sample.reassigning
                (formatAssignment Sample.activeWithAli)) as H.
  cbv zeta in H.
  assert (Hg : reassignmentNewGuideId (reassignment (ui Sample.reassigning)) <> [])
    by (vm_compute; discriminate).
  assert (Ht : reassignmentTouristId (reassignment (ui Sample.reassigning)) <> [])
    by (vm_compute; discriminate).
  destruct (H Hg Ht eq_refl) as (Hreq & Hrows & _ & Hlocal & _).
  split; [reflexivity|]. split; [reflexivity|].
  split; [exact Hreq|]. split; [exact Hlocal|exact Hrows].
Defined.


Lemma handleAssignGuide_notification_failure_witness :
  let w := Sample.assigning in
  let generated : Row := {[ "id" := VStr (js "a7") ]} in
  let w' := handleAssignGuide (Accepted generated) (Threw (js "Failed to fetch"))
              250 w in
  Threw (js "Failed to fetch") <> Returned
  /\ assignments (ui w')
     = [formatAssignment Sample.pendingWithBadr;
        Assignment.mk (js "a7") (js "t1") (js "g1") (js "Hegra at dawn")
          (js "2025-03-01") (js "2025-03-03") (js "active")
          (js "1970-01-01T00:00:00.250Z")]
  /\ assignForm (ui w') = clearedAssignForm
  /\ toasts (trace w')
     = [mkToast (Lit (js "Assignment Created"))
          (Lit (js "Tour guide assigned successfully and notifications sent!"))
          false].
Proof.
  cbv zeta.
  pose proof (handleAssignGuide_notification_failure {[ "id" := VStr (js "a7") ]}
                (Threw (js "Failed to fetch")) 250 Sample.assigning) as H.
  cbv zeta in H.
  assert (Hfail : Threw (js "Failed to fetch") <> Returned) by discriminate.
  destruct (H ltac:(vm_compute; discriminate) ltac:(vm_compute; discriminate)
              ltac:(vm_compute; discriminate) ltac:(vm_compute; discriminate)
              ltac:(vm_compute; discriminate) Hfail)
    as (_ & _ & Hlocal & Hform & Htoasts & _).
  split; [exact Hfail|]. split; [exact Hlocal|]. split; [exact Hform|exact Htoasts].
Defined.

Lemma handleCreateGuide_specializations_witness :
  let w := Sample.creatingGuide in
  let w' := handleCreateGuide (Accepted {[ "id" := VStr (js "g17") ]}) w in
  newGuideSpecializations (guideForm (ui w)) = js "Desert, Night Tour, "
  /\ exists row : Row,
       requests (trace w') = [Insert "guides" row]
       /\ row !! "specializations" = Some (VArr [js "Desert"; js "Night Tour"])
       /\ row !! "rating" = Some (VNum 0).
Proof.
  cbv zeta.
  pose proof (handleCreateGuide_specializations
                (Accepted {[ "id" := VStr (js "g17") ]}) Sample.creatingGuide) as H.
  cbv zeta in H.
  destruct (H ltac:(vm_compute; discriminate) ltac:(vm_compute; discriminate)
              ltac:(vm_compute; discriminate) ltac:(vm_compute; discriminate)
              ltac:(vm_compute; discriminate))
    as (_ & _ & row & Hreq & Hspec & Hrating & _).
  split; [reflexivity|].
  exists row. split; [exact Hreq|]. split; [exact Hspec|exact Hrating].
Defined.

Lemma handleSignUp_upserts_tourist_profile_witness :
  let w := Sample.signingUp in
  let w' := handleSignUp (js "https://alula.example")
              (Data (mkSignUpData (Some (js "u1")) (Some (js "session-1"))))
              (ReturnedError (js "permission denied")) w in
  fst (validateInput w) = true
  /\ trace w'
     = [Request (SignUp (js "aisha@example.com") (js "secret1")
                   (js "https://alula.example/")
                   (obj [("user_type", VStr (js "tourist"));
                         ("full_name", VStr (js "Aisha Al-Harbi"));
                         ("phone_number", VStr (js "+966500000000"))]));
        Request (Upsert "profiles"
                   (obj [("id", VStr (js "u1"));
                         ("user_type", VStr (js "tourist"));
                         ("full_name", VStr (js "Aisha Al-Harbi"));
                         ("phone_number", VStr (js "+966500000000"));
                         ("contact_info", VStr (js " +966500000000"))]));
        ConsoleError "Error creating profile:" (js "permission denied");
        Toasted (mkToast (Tr "accountCreated") (Tr "welcomeTourist") false);
        LoginSuccess (js "u1") (js "session-1")]
  /\ loading (ui w') = false
  /\ db w' = db w.
Proof.
  cbv zeta.
  assert (Hvalid : fst (validateInput Sample.signingUp) = true)
    by (vm_compute; reflexivity).
  pose proof (handleSignUp_upserts_tourist_profile (js "https://alula.example")
                (js "u1") (js "session-1")
                (ReturnedError (js "permission denied")) Sample.signingUp Hvalid)
    as H.
  cbv zeta in H. destruct H as (_ & _ & _ & _ & Htrace & Hui & Hdb).
  split; [exact Hvalid|]. split; [exact Htrace|].
  split; [now rewrite Hui|exact Hdb].
Defined.

Lemma fetchTourists_derived_status_witness :
  let rows := [Sample.completedWithAli; Sample.activeWithAli; Sample.pendingWithBadr] in
  let fetched := select_in "status" [js "pending"; js "active"] rows in
  fetched = [Sample.activeWithAli] ++ Sample.pendingWithBadr :: []
  /\ Tourist.status (formatTourist (assignmentMap fetched) Sample.aisha)
     = Tourist.pending
  /\ Tourist.assignedGuide (formatTourist (assignmentMap fetched) Sample.aisha)
     = js "Badr".
Proof.
  cbv zeta.
  pose proof (fetchTourists_derived_status [Sample.aisha]
                [Sample.completedWithAli; Sample.activeWithAli;
                 Sample.pendingWithBadr]
                Sample.reassigning Sample.aisha) as H.
  cbv zeta in H. destruct H as (_ & _ & Hlast).
  assert (Hfetched :
    select_in "status" [js "pending"; js "active"]
      [Sample.completedWithAli; Sample.activeWithAli; Sample.pendingWithBadr]
    = [Sample.activeWithAli] ++ Sample.pendingWithBadr :: [])
    by reflexivity.
  destruct (Hlast [Sample.activeWithAli] [] Sample.pendingWithBadr Hfetched
              eq_refl (fun b (Hb : In b []) => match Hb with end))
    as (_ & Hpending & _ & Hguide).
  split; [exact Hfetched|].
  split; [exact (Hpending eq_refl)|].
  apply Hguide. vm_compute. discriminate.
Defined.

Lemma handleRequestResponse_rejected_witness :
  let w' := handleRequestResponse (Accepted ∅) (js "r1") rejected (Some (js "g2"))
              (Some (js "Sorry, no guides available at this time."))
              Sample.triage in
  requests (trace w')
  = [Update "guide_requests"
       (obj [("status", VStr (js "rejected"));
             ("admin_response",
              VStr (js "Sorry, no guides available at this time."))])
       "id" (js "r1")]
  /\ updateData approved (Some (js "g2")) None !! "assigned_guide_id"
     = Some (VStr (js "g2")).
Proof.
  cbv zeta.
  pose proof (handleRequestResponse_rejected ∅ (js "r1") (Some (js "g2"))
                (Some (js "Sorry, no guides available at this time."))
                Sample.triage) as H.
  cbv zeta in H. destruct H as (Hreq & _ & _ & _ & _ & _ & Happroved).
  split; [exact Hreq|].
  apply Happroved. vm_compute. discriminate.
Defined.

Lemma status_from_last_row_reassign_first_row_witness :
  let w := Sample.reassigning in
  Tourist.status
    (formatTourist
       (assignmentMap ([Sample.activeWithAli] ++ Sample.pendingWithBadr :: []))
       Sample.aisha) = Tourist.pending
  /\ requests (trace (handleReassignGuide (Refused (js "timeout")) 0 0 0 w))
     = [Update "tour_assignments" {[ "guide_id" := VStr (js "g3") ]} "id" (js "a1")].
Proof.
  cbv zeta.
  destruct status_from_last_row_reassign_first_row as (Hlast & Hfirst & _).
  split.
  - destruct (Hlast _ [Sample.activeWithAli] [] Sample.pendingWithBadr
                Sample.aisha eq_refl eq_refl
                (fun b (Hb : In b []) => match Hb with end))
      as (_ & Hstatus & _).
    exact Hstatus.
  - destruct (Hfirst (Refused (js "timeout")) 0 0 0 Sample.reassigning
                (formatAssignment Sample.activeWithAli)
                ltac:(vm_compute; discriminate) ltac:(vm_compute; discriminate)
                eq_refl) as (_ & Hreq).
    exact Hreq.
Defined.

(** * Further properties *)

(** ** Regular expressions *)

Lemma nullable_Matches (r : regex) : nullable r = true <-> Matches r [].
Proof.
  induction r as [| | p | r1 IH1 r2 IH2 | r1 IH1 r2 IH2 | r IH]; cbn.
  - split; [discriminate|inversion 1].
  - split; [constructor|reflexivity].
  - split; [discriminate|inversion 1].
  - rewrite andb_true_iff, IH1, IH2. split.
    + intros [H1 H2]. change (@nil N) with (@nil N ++ []). now constructor.
    + inversion 1 as [| |? ? s1 s2 H1 H2 Hr Hs| | | |]; subst.
      apply app_eq_nil in Hs as [-> ->]. now split.
  - rewrite orb_true_iff, IH1, IH2. split.
    + intros [H|H]; [now apply MAltL|now apply MAltR].
    + inversion 1; subst; auto.
  - split; [constructor|reflexivity].
Qed.

(** A non-empty match of a star begins with a non-empty match of its body. *)
Lemma Matches_star_cons (r : regex) (c : N) (s : jsstring) :
  Matches (RStar r) (c :: s) ->
  exists s1 s2, s = s1 ++ s2 /\ Matches r (c :: s1) /\ Matches (RStar r) s2.
Proof.
  intros H. remember (RStar r) as r' eqn:Hr. remember (c :: s) as cs eqn:Hcs.
  revert c s Hcs.
  induction H as [| | | | | |r0 s1 s2 H1 _ H2 IH2]; try discriminate Hr;
    intros c s Hcs; [discriminate Hcs|].
  injection Hr as ->.
  destruct s1 as [|c1 s1]; cbn in Hcs.
  - apply IH2; [reflexivity|assumption].
  - injection Hcs as -> <-. eauto.
Qed.

Lemma deriv_Matches (r : regex) (c : N) (s : jsstring) :
  Matches (deriv c r) s <-> Matches r (c :: s).
Proof.
  revert s. induction r as [| | p | r1 IH1 r2 IH2 | r1 IH1 r2 IH2 | r IH];
    intros s; cbn.
  - split; inversion 1.
  - split; inversion 1.
  - destruct (p c) eqn:Hp; split.
    + inversion 1; subst. now constructor.
    + inversion 1; subst. constructor.
    + inversion 1.
    + inversion 1; subst. congruence.
  - assert (Hcat : Matches (RCat (deriv c r1) r2) s
                   <-> exists s1 s2, s = s1 ++ s2 /\ Matches r1 (c :: s1)
                                     /\ Matches r2 s2).
    { split.
      - inversion 1 as [| |? ? s1 s2 H1 H2 Hr Hs| | | |]; subst.
        apply IH1 in H1. eauto.
      - intros (s1 & s2 & -> & H1 & H2). apply IH1 in H1. now constructor. }
    destruct (nullable r1) eqn:Hn.
    + split.
      * inversion 1 as [| | |? ? ? H1| ? ? ? H2 | |]; subst.
        -- apply Hcat in H1 as (s1 & s2 & -> & H1 & H2).
           change (c :: s1 ++ s2) with ((c :: s1) ++ s2). now constructor.
        -- apply IH2 in H2. apply nullable_Matches in Hn.
           change (c :: s) with ([] ++ c :: s). now constructor.
      * inversion 1 as [| |? ? s1 s2 H1 H2 Hr Hs| | | |]; subst.
        destruct s1 as [|c1 s1]; cbn in Hs.
        -- subst. apply MAltR. now apply IH2.
        -- injection Hs as -> <-. apply MAltL. apply Hcat. eauto.
    + rewrite Hcat. split.
      * intros (s1 & s2 & -> & H1 & H2).
        change (c :: s1 ++ s2) with ((c :: s1) ++ s2). now constructor.
      * inversion 1 as [| |? ? s1 s2 H1 H2 Hr Hs| | | |]; subst.
        destruct s1 as [|c1 s1]; cbn in Hs.
        -- apply nullable_Matches in H1. congruence.
        -- injection Hs as -> <-. eauto.
  - split.
    + inversion 1; subst; [apply MAltL; now apply IH1|apply MAltR; now apply IH2].
    + inversion 1; subst; [apply MAltL; now apply IH1|apply MAltR; now apply IH2].
  - split.
    + inversion 1 as [| |? ? s1 s2 H1 H2 Hr Hs| | | |]; subst.
      apply IH in H1. change (c :: s1 ++ s2) with ((c :: s1) ++ s2).
      now constructor.
    + intros H. apply Matches_star_cons in H as (s1 & s2 & -> & H1 & H2).
      apply IH in H1. now constructor.
Qed.

(** The matcher decides the denotation. *)
Lemma test_Matches (r : regex) (s : jsstring) : test r s = true <-> Matches r s.
Proof.
  revert r. induction s as [|c s IH]; intros r; cbn.
  - apply nullable_Matches.
  - rewrite IH. apply deriv_Matches.
Qed.

Lemma Matches_plus_class (p : N -> bool) (s : jsstring) :
  Matches (RPlus (RClass p)) s <-> s <> [] /\ Forall (fun c => p c = true) s.
Proof.
  assert (Hstar : forall s, Matches (RStar (RClass p)) s
                            <-> Forall (fun c => p c = true) s).
  { intros s0. split.
    - intros H. remember (RStar (RClass p)) as r eqn:Hr.
      induction H as [| | | | | |r0 s1 s2 H1 _ H2 IH2]; try discriminate.
      + constructor.
      + injection Hr as ->. inversion H1; subst. constructor; auto.
    - induction 1 as [|c l Hc _ IH]; [constructor|].
      change (c :: l) with ([c] ++ l). constructor; [now constructor|assumption]. }
  unfold RPlus. split.
  - inversion 1 as [| |? ? s1 s2 H1 H2 Hr Hs| | | |]; subst.
    inversion H1; subst. apply Hstar in H2. split; [discriminate|].
    constructor; assumption.
  - intros [Hne Hall]. destruct s as [|c l]; [congruence|].
    inversion Hall; subst. change (c :: l) with ([c] ++ l).
    constructor; [now constructor|now apply Hstar].
Qed.

(** ** The input validation of the tourist form *)

Lemma notSpaceNorAt_class (c : N) :
  negb (isWhiteSpace c || (c =? N_of_ascii "@")%N) = true <-> addressUnit c.
Proof.
  unfold addressUnit. rewrite negb_true_iff, orb_false_iff, N.eqb_neq.
  reflexivity.
Qed.

Lemma Matches_address_part (s : jsstring) :
  Matches (RPlus notSpaceNorAt) s <-> s <> [] /\ Forall addressUnit s.
Proof.
  unfold notSpaceNorAt. rewrite Matches_plus_class.
  split; intros [Hne Hall]; (split; [assumption|]);
    (eapply Forall_impl; [exact Hall|]); intros c Hc; now apply notSpaceNorAt_class.
Qed.

Lemma Matches_char (c : N) (s : jsstring) : Matches (RChar c) s <-> s = [c].
Proof.
  unfold RChar. split.
  - inversion 1 as [|? ? Hc| | | | |]; subst. apply N.eqb_eq in Hc. now subst.
  - intros ->. constructor. apply N.eqb_refl.
Qed.

(** X1.  The address pattern accepts exactly the strings [a@b.c] whose
    three parts are non-empty and free of white space and of [@]: one [@],
    and a dot inside what follows it. *)
Theorem emailRegex_accepts (s : jsstring) :
  test emailRegex s = true
  <-> exists a b c,
        s = a ++ N_of_ascii "@" :: b ++ N_of_ascii "." :: c
        /\ a <> [] /\ b <> [] /\ c <> []
        /\ Forall addressUnit a /\ Forall addressUnit b /\ Forall addressUnit c.
Proof.
  rewrite test_Matches. unfold emailRegex. split.
  - inversion 1 as [| |? ? a s1 Ha H1 Hr Hs| | | |]; subst.
    inversion H1 as [| |? ? at' s2 Hat H2 Hr Hs| | | |]; subst.
    inversion H2 as [| |? ? b s3 Hb H3 Hr Hs| | | |]; subst.
    inversion H3 as [| |? ? dot c Hdot Hc Hr Hs| | | |]; subst.
    apply Matches_char in Hat, Hdot. subst.
    apply Matches_address_part in Ha as [? ?], Hb as [? ?], Hc as [? ?].
    exists a, b, c. cbn. repeat split; assumption.
  - intros (a & b & c & -> & Ha & Hb & Hc & Fa & Fb & Fc).
    constructor; [now apply Matches_address_part|].
    change (N_of_ascii "@" :: b ++ N_of_ascii "." :: c)
      with ([N_of_ascii "@"] ++ b ++ [N_of_ascii "."] ++ c).
    constructor; [now apply Matches_char|].
    constructor; [now apply Matches_address_part|].
    constructor; [now apply Matches_char|now apply Matches_address_part].
Qed.

(** The cases of [validateInput]. *)
Lemma validateInput_cases (w : World LoginState) :
  let '(valid, w') := validateInput w in
  db w' = db w
  /\ ui w' = ui w
  /\ (valid = true -> trace w' = trace w)
  /\ (valid = false ->
      exists t, trace w' = trace w ++ [Toasted t]
                /\ destructive t = true
                /\ description t <> Lit (js "Please enter your phone number.")).
Proof.
  unfold validateInput, invalid.
  destruct (falsy (trim (identifier (ui w)))) eqn:Hid; cbn [orb].
  { repeat split; try discriminate. intros _. eexists. repeat split. discriminate. }
  destruct (falsy (trim (password (ui w)))); cbn [orb].
  { repeat split; try discriminate. intros _. eexists. repeat split. discriminate. }
  destruct (isSignUp (ui w) && falsy (trim (fullName (ui w)))).
  { repeat split; try discriminate. intros _. eexists. repeat split. discriminate. }
  rewrite andb_false_r.
  destruct (method (ui w)).
  - destruct (_ <? 9).
    { repeat split; try discriminate. intros _. eexists. repeat split. discriminate. }
    destruct (isSignUp (ui w) && _).
    { repeat split; try discriminate. intros _. eexists. repeat split. discriminate. }
    destruct (_ <? 6); repeat split; try discriminate.
    intros _. eexists. repeat split. discriminate.
  - destruct (negb _).
    { repeat split; try discriminate. intros _. eexists. repeat split. discriminate. }
    destruct (isSignUp (ui w) && _).
    { repeat split; try discriminate. intros _. eexists. repeat split. discriminate. }
    destruct (_ <? 6); repeat split; try discriminate.
    intros _. eexists. repeat split. discriminate.
Qed.

(** X2.  [validateInput] reads and never writes: tables and form are as
    before.  It answers [true] without a trace, and [false] with exactly
    one toast, a destructive one; the toast that asks for the phone number
    is never shown, its test being covered by the first one. *)
Theorem validateInput_verdict (w : World LoginState) :
  let '(valid, w') := validateInput w in
  db w' = db w
  /\ ui w' = ui w
  /\ (valid = true -> trace w' = trace w)
  /\ (valid = false ->
      exists t, trace w' = trace w ++ [Toasted t]
                /\ destructive t = true
                /\ description t <> Lit (js "Please enter your phone number.")).
Proof. exact (validateInput_cases w). Qed.

(** X3.  What [validateInput] accepts: identifier and password are not
    blank, the password has at least six code units, on the email tab the
    identifier matches the address pattern and on the phone tab it holds
    at least nine ASCII digits, and for a sign-up the full name is not
    blank and the confirmation equals the password. *)
Theorem validateInput_accepts (w : World LoginState) :
  let s := ui w in
  fst (validateInput w) = true
  <-> trim (identifier s) <> []
      /\ trim (password s) <> []
      /\ (6 <= Z.of_nat (List.length (password s)))
      /\ match method s with
         | email => test emailRegex (identifier s) = true
         | phone => 9 <= Z.of_nat (List.length (digitsOf (identifier s)))
         end
      /\ (isSignUp s = true ->
          trim (fullName s) <> [] /\ confirmPassword s = password s).
Proof.
  intros s. unfold validateInput, invalid. fold s.
  destruct (falsy (trim (identifier s))) eqn:Hid; cbn [orb fst].
  { apply falsy_nil in Hid. split; [discriminate|]. intros [H _]. congruence. }
  apply falsy_false in Hid.
  destruct (falsy (trim (password s))) eqn:Hpw; cbn [orb fst].
  { apply falsy_nil in Hpw. split; [discriminate|]. intros (_ & H & _). congruence. }
  apply falsy_false in Hpw.
  rewrite andb_false_r.
  assert (Hmethod :
    forall (b : bool) (P : Prop), (b = false <-> P) ->
      fst (if isSignUp s && falsy (trim (fullName s))
           then (false, toast (mkToast (Tr "missingInfo") (Tr "enterFullNameMsg") true) w)
           else if b
           then (false, w)
           else if isSignUp s && negb (str_eqb (password s) (confirmPassword s))
           then (false, w)
           else if Z.of_nat (List.length (password s)) <? 6
           then (false, w)
           else (true, w)) = true
      <-> trim (identifier s) <> [] /\ trim (password s) <> []
          /\ 6 <= Z.of_nat (List.length (password s))
          /\ P
          /\ (isSignUp s = true ->
              trim (fullName s) <> [] /\ confirmPassword s = password s)).
  { intros b P HP.
    destruct (isSignUp s) eqn:Hsu; cbn [andb].
    - destruct (falsy (trim (fullName s))) eqn:Hfn; cbn [fst].
      { apply falsy_nil in Hfn. split; [discriminate|].
        intros (_ & _ & _ & _ & H). destruct (H eq_refl). congruence. }
      apply falsy_false in Hfn.
      destruct b; cbn [fst].
      { split; [discriminate|]. intros (_ & _ & _ & H & _).
        apply HP in H. discriminate. }
      destruct (str_eqb (password s) (confirmPassword s)) eqn:Hc; cbn [negb fst].
      + apply str_eqb_eq in Hc.
        destruct (Z.ltb_spec (Z.of_nat (List.length (password s))) 6); cbn [fst].
        * split; [discriminate|]. intros (_ & _ & H' & _). lia.
        * split; [|reflexivity]. intros _. repeat split; auto; try lia.
          now apply HP.
      + apply str_eqb_neq in Hc. split; [discriminate|].
        intros (_ & _ & _ & _ & H). destruct (H eq_refl). congruence.
    - destruct b; cbn [fst].
      { split; [discriminate|]. intros (_ & _ & _ & H & _).
        apply HP in H. discriminate. }
      destruct (Z.ltb_spec (Z.of_nat (List.length (password s))) 6); cbn [fst].
      + split; [discriminate|]. intros (_ & _ & H' & _). lia.
      + split; [|reflexivity]. intros _. repeat split; auto; try lia;
          try discriminate. now apply HP. }
  destruct (method s).
  - specialize (Hmethod (Z.of_nat (List.length (digitsOf (identifier s))) <? 9)
                  (9 <= Z.of_nat (List.length (digitsOf (identifier s))))).
    rewrite <- Hmethod by (rewrite Z.ltb_ge; reflexivity).
    destruct (isSignUp s && falsy (trim (fullName s))); [reflexivity|].
    cbn zeta. destruct (_ <? 9); [reflexivity|].
    destruct (isSignUp s && _); [reflexivity|].
    destruct (_ <? 6); reflexivity.
  - specialize (Hmethod (negb (test emailRegex (identifier s)))
                  (test emailRegex (identifier s) = true)).
    rewrite <- Hmethod by apply negb_false_iff.
    destruct (isSignUp s && falsy (trim (fullName s))); [reflexivity|].
    destruct (negb _); [reflexivity|].
    destruct (isSignUp s && _); [reflexivity|].
    destruct (_ <? 6); reflexivity.
Qed.

(** ** Local-only changes of the assignment list *)

(** X4.  [removeAssignment] is local: it issues no request and leaves the
    tables alone.  The entries with the given id, and only those, leave the
    local list; with no such entry the list is unchanged.  When the list
    mirrored the store and an entry is removed, it does so no longer. *)
Theorem removeAssignment_local (assignmentId : jsstring) (w : World State) :
  let w' := removeAssignment assignmentId w in
  db w' = db w
  /\ requests (trace w') = requests (trace w)
  /\ (forall a, In a (assignments (ui w'))
                <-> In a (assignments (ui w)) /\ Assignment.id a <> assignmentId)
  /\ ((forall a, In a (assignments (ui w)) -> Assignment.id a <> assignmentId) ->
      assignments (ui w') = assignments (ui w))
  /\ (mirrors w ->
      (exists a, In a (assignments (ui w)) /\ Assignment.id a = assignmentId) ->
      ~ mirrors w').
Proof.
  cbv zeta. unfold removeAssignment. cbn. rewrite requests_app. cbn.
  rewrite app_nil_r.
  split; [reflexivity|]. split; [reflexivity|]. split.
  { intros a. rewrite filter_In, negb_true_iff, str_eqb_neq. reflexivity. }
  split.
  { intros Hall. induction (assignments (ui w)) as [|a l IH]; [reflexivity|].
    cbn. assert (Ha : str_eqb (Assignment.id a) assignmentId = false)
      by (apply str_eqb_neq, Hall; now left).
    rewrite Ha. cbn. f_equal. apply IH. intros b Hb. apply Hall. now right. }
  unfold mirrors. cbn. intros Hm (a & Hin & Hid) Hm'.
  apply Forall2_length in Hm, Hm'. rewrite <- Hm in Hm'.
  clear Hm. induction (assignments (ui w)) as [|b l IH]; [destruct Hin|].
  cbn in Hm'. pose proof (filter_length_le
    (fun a => negb (str_eqb (Assignment.id a) assignmentId)) l) as Hle.
  destruct (str_eqb (Assignment.id b) assignmentId) eqn:Hb; cbn in Hm'.
  - lia.
  - destruct Hin as [->|Hin].
    + apply str_eqb_neq in Hb. contradiction.
    + apply IH; [assumption|]. now injection Hm'.
Qed.

Lemma map_patch_lookup {A : Type} (test : A -> bool) (f : A -> A) (l : list A)
    (i : nat) (a : A) :
  l !! i = Some a ->
  List.map (fun x => if test x then f x else x) l !! i
  = Some (if test a then f a else a).
Proof.
  intros H. change (List.map ?g l) with (g <$> l).
  now rewrite list_lookup_fmap, H.
Qed.

(** X5.  [updateAssignmentStatus] is local too: no request, tables alone.
    The list keeps its length; at every place, an entry with the given id
    gets the new status and keeps its other fields, and any other entry is
    unchanged. *)
Theorem updateAssignmentStatus_local (assignmentId status : jsstring)
    (w : World State) :
  let w' := updateAssignmentStatus assignmentId status w in
  db w' = db w
  /\ requests (trace w') = requests (trace w)
  /\ List.length (assignments (ui w')) = List.length (assignments (ui w))
  /\ forall (i : nat) (a : Assignment.t),
       assignments (ui w) !! i = Some a ->
       exists a',
         assignments (ui w') !! i = Some a'
         /\ Assignment.id a' = Assignment.id a
         /\ Assignment.touristId a' = Assignment.touristId a
         /\ Assignment.guideId a' = Assignment.guideId a
         /\ Assignment.tourName a' = Assignment.tourName a
         /\ Assignment.startDate a' = Assignment.startDate a
         /\ Assignment.endDate a' = Assignment.endDate a
         /\ Assignment.createdAt a' = Assignment.createdAt a
         /\ (Assignment.id a = assignmentId -> Assignment.status a' = status)
         /\ (Assignment.id a <> assignmentId -> a' = a).
Proof.
  cbv zeta. unfold updateAssignmentStatus, toast, emit, setUi, setAssignments.
  cbn [ui db trace assignments]. rewrite requests_app. cbn [requests omap].
  rewrite app_nil_r.
  split; [reflexivity|]. split; [reflexivity|].
  split; [apply length_map|].
  intros i a Hi. eexists.
  split; [exact (map_patch_lookup
                   (fun x => str_eqb (Assignment.id x) assignmentId)
                   (withStatus status) _ i a Hi)|].
  destruct (str_eqb (Assignment.id a) assignmentId) eqn:Ha.
  - apply str_eqb_eq in Ha. cbn. repeat split; congruence.
  - apply str_eqb_neq in Ha. repeat split; congruence.
Qed.

(** X6.  [fetchAssignments] replaces the local list as a whole by the
    formatted rows, so what [removeAssignment] and [updateAssignmentStatus]
    changed before it is gone; a failed select keeps the list and the
    tables and shows one destructive toast. *)
Theorem fetchAssignments_replaces (selected : list Row) (message : jsstring)
    (assignmentId status : jsstring) (w : World State) :
  let fetched := fetchAssignments (Data selected) in
  assignments (ui (fetched w)) = formatAssignment <$> selected
  /\ trace (fetched w) = trace w
  /\ db (fetched w) = db w
  /\ ui (fetched (removeAssignment assignmentId w)) = ui (fetched w)
  /\ ui (fetched (updateAssignmentStatus assignmentId status w)) = ui (fetched w)
  /\ (let failed := fetchAssignments (Error message) w in
      ui failed = ui w
      /\ db failed = db w
      /\ toasts (trace failed)
         = toasts (trace w) ++ [errorToast (js "Failed to fetch assignments")]).
Proof.
  cbv zeta. cbn. rewrite !toasts_app. cbn. rewrite app_nil_r.
  repeat split.
Qed.

(** ** The local list and the store *)

Lemma mirrors_ext (w w' : World State) :
  assignments (ui w') = assignments (ui w) -> db w' = db w ->
  mirrors w -> mirrors w'.
Proof. unfold mirrors. now intros -> ->. Qed.

Lemma field_is_keyed (row : Row) (v : jsstring) :
  (exists s, row !! "id" = Some (VStr s)) ->
  field_is row "id" v = str_eqb (str_of row "id") v.
Proof. intros [s Hs]. unfold field_is, str_of. now rewrite Hs. Qed.

Lemma formatAssignment_new_guide (g : jsstring) (row : Row) :
  formatAssignment (obj [("guide_id", VStr g)] ∪ row)
  = Assignment.withGuideId g (formatAssignment row).
Proof.
  unfold formatAssignment, Assignment.withGuideId. cbn [Assignment.id
    Assignment.touristId Assignment.tourName Assignment.startDate
    Assignment.endDate Assignment.status Assignment.createdAt].
  rewrite (str_of_union_l _ row "guide_id" g) by reflexivity.
  rewrite !str_of_union_r by reflexivity. reflexivity.
Qed.

Lemma sameButCreatedAt_withGuideId (g : jsstring) (a b : Assignment.t) :
  sameButCreatedAt a b ->
  sameButCreatedAt (Assignment.withGuideId g a) (Assignment.withGuideId g b).
Proof. unfold sameButCreatedAt. cbn. tauto. Qed.

Lemma mirror_patch (g existingId : jsstring) (l : list Assignment.t)
    (rows : list Row) :
  keyed rows ->
  Forall2 (fun a row => sameButCreatedAt a (formatAssignment row)) l rows ->
  Forall2 (fun a row => sameButCreatedAt a (formatAssignment row))
    (List.map (fun a => if str_eqb (Assignment.id a) existingId
                        then Assignment.withGuideId g a else a) l)
    ((fun row => if field_is row "id" existingId
                 then obj [("guide_id", VStr g)] ∪ row else row) <$> rows).
Proof.
  intros Hkeyed Hm. induction Hm as [|a row l rows Hrow _ IH]; [constructor|].
  inversion Hkeyed as [|? ? Hkey Hkeyed']; subst.
  cbn [List.map fmap list_fmap]. constructor; [|now apply IH].
  rewrite (field_is_keyed row _ Hkey).
  assert (Hid : Assignment.id a = str_of row "id") by apply Hrow.
  rewrite Hid.
  destruct (str_eqb (str_of row "id") existingId); [|assumption].
  rewrite formatAssignment_new_guide. now apply sameButCreatedAt_withGuideId.
Qed.


Lemma mirror_append_returned (row generated : Row)
    (touristId guideId name status createdAt : jsstring)
    (l : list Assignment.t) (rows : list Row) :
  generated !! "tourist_id" = None -> row !! "tourist_id" = Some (VStr touristId) ->
  generated !! "guide_id" = None -> row !! "guide_id" = Some (VStr guideId) ->
  generated !! "tour_name" = None -> row !! "tour_name" = Some (VStr name) ->
  generated !! "status" = None -> row !! "status" = Some (VStr status) ->
  Forall2 (fun a r => sameButCreatedAt a (formatAssignment r)) l rows ->
  Forall2 (fun a r => sameButCreatedAt a (formatAssignment r))
    (l ++ [Assignment.mk (str_of (generated ∪ row) "id") touristId guideId name
             (str_of (generated ∪ row) "start_date")
             (str_of (generated ∪ row) "end_date") status createdAt])
    (rows ++ [generated ∪ row]).
Proof.
  intros Gt Rt Gg Rg Gn Rn Gs Rs Hm.
  apply Forall2_app; [exact Hm|]. constructor; [|constructor].
  unfold sameButCreatedAt, formatAssignment.
  cbn [Assignment.id Assignment.touristId Assignment.guideId
       Assignment.tourName Assignment.startDate Assignment.endDate
       Assignment.status].
  repeat split; try reflexivity; symmetry; unfold str_of;
    rewrite lookup_union_r by assumption;
    match goal with H : row !! _ = _ |- _ => now rewrite H end.
Qed.

(** X7.  The reconciler keeps the local list in step with the store.  When
    the stored assignments have string ids and the local list mirrors
    them, it still does after [handleReassignGuide], whatever the clock
    reads, whatever the store answers and whichever branch runs, as long
    as the store returns tourist, guide, tour name and status of an insert
    as they were sent: what the handler patches or appends locally is what
    it wrote, up to [createdAt]. *)
Theorem handleReassignGuide_keeps_mirror (write : reply) (today now later : Z)
    (w : World State) :
  keyed (rows_of (db w) "tour_assignments") ->
  mirrors w ->
  match write with
  | Accepted generated =>
      generated !! "tourist_id" = None /\ generated !! "guide_id" = None
      /\ generated !! "tour_name" = None /\ generated !! "status" = None
  | Refused _ => True
  end ->
  mirrors (handleReassignGuide write today now later w).
Proof.
  intros Hkeyed Hm Hsent. unfold handleReassignGuide.
  destruct (falsy _ || falsy _); [now apply (mirrors_ext w)|].
  destruct (List.find _ _) as [existing|].
  - destruct write as [generated|message]; [|now apply (mirrors_ext w)].
    unfold mirrors, reassignDone, start, toast, request; unfold emit, setUi,
      setDb, setAssignments, setReassignment.
    cbn [ui db trace assignments]. rewrite rows_of_update_rows.
    exact (mirror_patch _ _ _ _ Hkeyed Hm).
  - destruct (isoDayOf _) as [end_date|]; [|now apply (mirrors_ext w)].
    destruct write as [generated|message]; [|now apply (mirrors_ext w)].
    destruct Hsent as (Gt & Gg & Gn & Gs).
    unfold mirrors, reassignDone, start, toast, request; unfold emit, setUi,
      setDb, setAssignments, setReassignment.
    cbn [ui db trace assignments]. rewrite rows_of_insert_row.
    now apply mirror_append_returned.
Qed.


(** X9.  After a run of [handleReassignGuide] that the store accepted, a
    second run does nothing but ask for a guide: the first run was stopped
    by the guard, and so is the second, or it cleared the dialog.  When the
    first run went through, this is still so after the dialog is opened
    again, on any tourist, until a guide is chosen. *)
Theorem handleReassignGuide_once (generated : Row) (write : reply)
    (today now later today' now' later' : Z) (w : World State) :
  validTime (now + 7 * 24 * 60 * 60 * 1000) = true ->
  let w' := handleReassignGuide (Accepted generated) today now later w in
  let asks := toast (errorToast (js "Please select a new guide")) in
  handleReassignGuide write today' now' later' w' = asks w'
  /\ (reassignmentNewGuideId (reassignment (ui w)) <> [] ->
      reassignmentTouristId (reassignment (ui w)) <> [] ->
      forall touristId,
        let reopened := openTouristReassignmentDialog touristId w' in
        reassignmentDialogOpen (reassignment (ui reopened)) = true
        /\ handleReassignGuide write today' now' later' reopened = asks reopened).
Proof.
  intros Hvalid. cbv zeta. split.
  - apply handleReassignGuide_nothing_selected.
    unfold handleReassignGuide.
    destruct (falsy (reassignmentNewGuideId (reassignment (ui w)))) eqn:Hg.
    { left. now apply falsy_nil in Hg. }
    destruct (falsy (reassignmentTouristId (reassignment (ui w)))) eqn:Ht.
    { right. now apply falsy_nil in Ht. }
    cbn [orb]. rewrite (isoDayOf_valid _ Hvalid).
    destruct (List.find _ _); left; reflexivity.
  - intros Hg Ht touristId. split.
    + reflexivity.
    + apply handleReassignGuide_nothing_selected. left.
      unfold handleReassignGuide.
      rewrite (reassign_guard_passes _ Hg Ht), (isoDayOf_valid _ Hvalid).
      destruct (List.find _ _); reflexivity.
Qed.

(** ** Creating an assignment: refusal *)

(** X10.  With the form filled in, an insert the store refuses ends the
    handler: the insert is the only request, the notification function is
    not called, the tables, the local list and the form are as before, and
    one destructive toast shows the message of the error, or ['Failed to
    create assignment'] when it has none. *)
Theorem handleAssignGuide_refused (message : jsstring) (notified : outcome)
    (later : Z) (w : World State) :
  let f := assignForm (ui w) in
  selectedTourist f <> [] -> selectedGuide f <> [] -> AdminView.tourName f <> [] ->
  AdminView.startDate f <> [] -> AdminView.endDate f <> [] ->
  let w' := handleAssignGuide (Refused message) notified later w in
  (exists row, requests (trace w') = requests (trace w) ++ [Insert "tour_assignments" row])
  /\ ui w' = ui w
  /\ db w' = db w
  /\ toasts (trace w')
     = toasts (trace w)
       ++ [errorToast (if truthy message then message
                       else js "Failed to create assignment")].
Proof.
  intros f H1 H2 H3 H4 H5 w'. subst w'. unfold handleAssignGuide. fold f.
  rewrite (assign_guard_passes f H1 H2 H3 H4 H5).
  cbn -[obj]. rewrite !requests_app, !toasts_app. cbn -[obj].
  rewrite !app_nil_r. split; [eexists; reflexivity|]. repeat split.
Qed.

(** ** Guide request triage: the frame *)

(** X11.  [handleRequestResponse] touches one table.  Its request is an
    update of [guide_requests]; the component state and every other table,
    [tour_assignments] among them, are as before, and so is every request
    row with another id.  When the store refuses, the tables are as
    before, no fetcher is started and one destructive toast is shown. *)
Theorem handleRequestResponse_frame (update : reply) (requestId : jsstring)
    (status : Decision) (guideId response : option jsstring) (w : World State) :
  let w' := handleRequestResponse update requestId status guideId response w in
  ui w' = ui w
  /\ (exists payload,
        requests (trace w')
        = requests (trace w) ++ [Update "guide_requests" payload "id" requestId])
  /\ (forall tbl, tbl <> "guide_requests" -> rows_of (db w') tbl = rows_of (db w) tbl)
  /\ (forall (i : nat) (row : Row),
        rows_of (db w) "guide_requests" !! i = Some row ->
        field_is row "id" requestId = false ->
        rows_of (db w') "guide_requests" !! i = Some row)
  /\ (forall message,
        update = Refused message ->
        db w' = db w
        /\ trace w'
           = trace w
             ++ [Request (Update "guide_requests"
                            (updateData status guideId response) "id" requestId);
                 ConsoleError "Error updating request:" message;
                 Toasted (errorToast (js "Failed to update request"))]).
Proof.
  cbv zeta. unfold handleRequestResponse.
  set (payload := updateData status guideId response).
  destruct update as [generated|message].
  - cbn -[payload update_rows]. rewrite !requests_app. cbn -[payload update_rows].
    rewrite !app_nil_r.
    split; [reflexivity|]. split; [eexists; reflexivity|].
    split; [intros tbl Htbl; apply rows_of_update_rows_other; congruence|].
    split; [|discriminate].
    intros i row Hi Hid. rewrite rows_of_update_rows, list_lookup_fmap, Hi.
    cbn. now rewrite Hid.
  - cbn -[payload]. rewrite !requests_app. cbn -[payload]. rewrite !app_nil_r.
    split; [reflexivity|]. split; [eexists; reflexivity|].
    split; [reflexivity|]. split; [auto|].
    intros ? [= <-]. split; [reflexivity|]. now rewrite <- !app_assoc.
Qed.

(** ** Creating a guide: the outcomes *)

(** X12.  With one of name, email, phone, guide id or password missing,
    [handleCreateGuide] only shows the error toast: no request, and the
    state, the busy flag included, is as before.  Specializations and
    status are not required. *)
Theorem handleCreateGuide_validation (insert : reply) (w : World State) :
  let f := guideForm (ui w) in
  newGuideName f = [] \/ newGuideEmail f = [] \/ newGuidePhone f = []
    \/ newGuideId f = [] \/ newGuidePassword f = [] ->
  let w' := handleCreateGuide insert w in
  trace w' = trace w ++ [Toasted (errorToast (js "Please fill in all required fields"))]
  /\ requests (trace w') = requests (trace w)
  /\ ui w' = ui w
  /\ db w' = db w.
Proof.
  intros f Hempty w'. subst w'. unfold handleCreateGuide. fold f.
  assert (Hguard : falsy (newGuideName f) || falsy (newGuideEmail f)
                   || falsy (newGuidePhone f) || falsy (newGuideId f)
                   || falsy (newGuidePassword f) = true).
  { destruct Hempty as [H | [H | [H | [H | H]]]]; rewrite H; cbn;
      rewrite ?orb_true_r; reflexivity. }
  rewrite Hguard. cbn. rewrite requests_app. cbn. rewrite app_nil_r.
  repeat split.
Qed.

(** X13.  With the required fields filled, [handleCreateGuide] ends with
    the busy flag off.  When the store refuses, the form keeps what was
    typed, the tables are as before, no fetcher is started and one
    destructive toast shows the error message or ['Failed to create
    guide'].  When the store accepts, the form is reset, with the status
    back to ['available'], the toast names the guide id, and the guide
    fetcher is started last. *)
Theorem handleCreateGuide_outcomes (insert : reply) (w : World State) :
  let f := guideForm (ui w) in
  newGuideName f <> [] -> newGuideEmail f <> [] -> newGuidePhone f <> [] ->
  newGuideId f <> [] -> newGuidePassword f <> [] ->
  let w' := handleCreateGuide insert w in
  isCreatingGuide (ui w') = false
  /\ match insert with
     | Refused message =>
         guideForm (ui w') = f
         /\ db w' = db w
         /\ (exists row,
               trace w'
               = trace w
                 ++ [Request (Insert "guides" row);
                     ConsoleError "Error creating guide:" message;
                     Toasted (errorToast (if truthy message then message
                                          else js "Failed to create guide"))])
     | Accepted generated =>
         guideForm (ui w') = clearedGuideForm
         /\ newGuideStatus (guideForm (ui w')) = js "available"
         /\ (exists row,
               trace w'
               = trace w
                 ++ [Request (Insert "guides" row);
                     Toasted (mkToast (Lit (js "Success"))
                                (Lit (js "Guide created successfully! Guide ID: "
                                      ++ newGuideId f)) false);
                     Started FetchGuides])
     end.
Proof.
  intros f H1 H2 H3 H4 H5 w'. subst w'. unfold handleCreateGuide. fold f.
  rewrite (guide_guard_passes f H1 H2 H3 H4 H5).
  destruct insert as [generated|message]; cbn -[obj insert_row];
    rewrite <- ?app_assoc; cbn -[obj insert_row];
    repeat split; eexists; reflexivity.
Qed.

(** ** Editing a guide *)

Lemma split_without_sep (sep : N) (s : jsstring) :
  Forall (fun c => c <> sep) s -> split sep s = [s].
Proof.
  induction 1 as [|c s Hc _ IH]; cbn; [reflexivity|].
  apply N.eqb_neq in Hc. now rewrite Hc, IH.
Qed.

(** The pieces of a list joined by [", "], when no element holds a comma. *)
Lemma split_join_comma (x : jsstring) (rest : list jsstring) :
  Forall (Forall (fun c => c <> N_of_ascii ",")) (x :: rest) ->
  split (N_of_ascii ",") (join (js ", ") (x :: rest))
  = x :: List.map (fun y => N_of_ascii " " :: y) rest.
Proof.
  revert x. induction rest as [|y rest IH]; intros x Hall.
  - cbn [join List.map]. apply split_without_sep. now inversion Hall.
  - inversion Hall as [|? ? Hx Hrest]; subst.
    change (join (js ", ") (x :: y :: rest))
      with (x ++ N_of_ascii "," :: (N_of_ascii " " :: join (js ", ") (y :: rest))).
    rewrite split_first by assumption.
    change (split (N_of_ascii ",") (N_of_ascii " " :: join (js ", ") (y :: rest)))
      with (match split (N_of_ascii ",") (join (js ", ") (y :: rest)) with
            | [] => [[N_of_ascii " "]]
            | p :: ps => (N_of_ascii " " :: p) :: ps
            end).
    now rewrite (IH y Hrest).
Qed.

Lemma trimStart_id (s : jsstring) :
  (forall c, head s = Some c -> isWhiteSpace c = false) -> trimStart s = s.
Proof.
  destruct s as [|c s]; [reflexivity|]. intros H. cbn.
  now rewrite (H c eq_refl).
Qed.

Lemma trim_trimmed (s : jsstring) : trimmedEntry s -> trim s = s.
Proof.
  intros (_ & Hhead & Hlast & _). unfold trim, trimEnd.
  rewrite (trimStart_id s Hhead).
  rewrite trimStart_id; [apply reverse_involutive|].
  intros c Hc. apply Hlast. now rewrite <- head_reverse.
Qed.

Lemma trim_space_trimmed (s : jsstring) :
  trimmedEntry s -> trim (N_of_ascii " " :: s) = s.
Proof. intros H. change (trim (N_of_ascii " " :: s)) with (trim s). now apply trim_trimmed. Qed.

Lemma parse_join (l : list jsstring) :
  Forall trimmedEntry l ->
  parseSpecializations (join (js ", ") l) = l.
Proof.
  intros Hall. unfold parseSpecializations.
  destruct l as [|x rest]; [reflexivity|].
  rewrite split_join_comma
    by (eapply Forall_impl; [exact Hall|]; intros s Hs; apply Hs).
  inversion Hall as [|? ? Hx Hrest]; subst.
  cbn [List.map List.filter]. rewrite (trim_trimmed x Hx).
  assert (Hne : truthy x = true) by (apply truthy_true, Hx).
  rewrite Hne. f_equal.
  clear Hall Hx Hne. induction Hrest as [|y rest Hy _ IH]; [reflexivity|].
  cbn [List.map List.filter]. rewrite (trim_space_trimmed y Hy).
  assert (Hne : truthy y = true) by (apply truthy_true, Hy).
  now rewrite Hne, IH.
Qed.

(** X14.  What the specializations input of the editor shows parses back
    to what it was made from: joining trimmed entries with [", "] and
    splitting, trimming and filtering the text gives the entries again. *)
Theorem parseSpecializations_join (l : list jsstring) :
  Forall trimmedEntry l ->
  parseSpecializations (join (js ", ") l) = l.
Proof. apply parse_join. Qed.

Lemma pick_lookup (keys : list string) (o : Row) (k : string) :
  pick keys o !! k = if decide (k ∈ keys) then o !! k else None.
Proof.
  unfold pick. induction keys as [|k0 keys IH]; [reflexivity|].
  cbn [omap list_omap].
  destruct (decide (k0 = k)) as [->|Hne].
  - rewrite (decide_True (P := k ∈ k :: keys)) by apply list_elem_of_here.
    destruct (o !! k) as [v|] eqn:Hv; cbn.
    + now rewrite lookup_insert_eq.
    + rewrite IH. destruct (decide (k ∈ keys)); auto.
  - assert (Hiff : k ∈ k0 :: keys <-> k ∈ keys)
      by (rewrite elem_of_cons; intuition congruence).
    destruct (o !! k0) as [v|]; cbn; [rewrite lookup_insert_ne by assumption|];
      rewrite IH;
      destruct (decide (k ∈ keys)) as [H|H],
               (decide (k ∈ k0 :: keys)) as [H'|H'];
      try reflexivity; exfalso; tauto.
Qed.

(** X15.  Saving the draft of a guide sends [name], [email], [phone],
    [specializations] and [status] and nothing else.  When the store
    accepts, a guide row with the id of the draft takes these columns from
    the draft and keeps every other column, rating, guide id and password
    among them; the other rows and the other tables are unchanged, the
    editor is closed and the guide fetcher is started.  Without a draft
    the handler does nothing. *)
Theorem handleSaveEdit_editable_columns (generated : Row) (draft : Row)
    (w : World GuideEditor) :
  editGuideData (ui w) = Some draft ->
  let w' := handleSaveEdit (Accepted generated) w in
  let payload := pick editableColumns draft in
  let guideId := str_of draft "id" in
  requests (trace w') = requests (trace w) ++ [Update "guides" payload "id" guideId]
  /\ (forall col, payload !! col
                  = if decide (col ∈ editableColumns) then draft !! col else None)
  /\ (forall (i : nat) (row : Row),
        rows_of (db w) "guides" !! i = Some row ->
        exists row',
          rows_of (db w') "guides" !! i = Some row'
          /\ (field_is row "id" guideId = false -> row' = row)
          /\ (forall col, col ∉ editableColumns -> row' !! col = row !! col)
          /\ (field_is row "id" guideId = true ->
              forall col v, col ∈ editableColumns -> draft !! col = Some v ->
                            row' !! col = Some v))
  /\ (forall tbl, tbl <> "guides" -> rows_of (db w') tbl = rows_of (db w) tbl)
  /\ ui w' = mkGuideEditor None None
  /\ last (trace w') = Some (Started FetchGuides)
  /\ (forall (update : reply) (w0 : World GuideEditor),
        editGuideData (ui w0) = None -> handleSaveEdit update w0 = w0).
Proof.
  intros Hdraft w' payload guideId. subst w'. unfold handleSaveEdit.
  rewrite Hdraft. fold payload. fold guideId.
  cbn -[pick editableColumns update_rows]. rewrite !requests_app.
  cbn -[pick editableColumns update_rows]. rewrite !app_nil_r.
  fold payload. fold guideId.
  split; [reflexivity|].
  split; [intros col; apply pick_lookup|].
  split.
  { intros i row Hi. rewrite rows_of_update_rows, list_lookup_fmap, Hi.
    cbn [fmap option_fmap option_map].
    eexists. split; [reflexivity|].
    destruct (field_is row "id" guideId).
    - split; [discriminate|]. split.
      + intros col Hcol. apply lookup_union_r.
        etransitivity; [apply pick_lookup|]. now rewrite decide_False.
      + intros _ col v Hcol Hv.
        assert (Hp : payload !! col = Some v)
          by (etransitivity; [apply pick_lookup|]; now rewrite decide_True).
        rewrite lookup_union_l' by (rewrite Hp; eauto). exact Hp.
    - split; [reflexivity|]. split; [reflexivity|discriminate]. }
  split; [intros tbl Htbl; apply rows_of_update_rows_other; congruence|].
  split; [reflexivity|].
  split; [now rewrite last_snoc|].
  intros update w0 Hnone. unfold handleSaveEdit. now rewrite Hnone.
Qed.

(** X16.  Opening a guide in the editor and saving it untouched changes no
    guide row, provided the rows with the id of the guide are copies of
    it: the payload is part of the row it lands on.  And typing back what
    the specializations input shows leaves the draft as it is, when the
    specializations are trimmed entries. *)
Theorem handleEditGuide_then_save (generated : Row) (guide : Row)
    (w : World GuideEditor) :
  (forall row, In row (rows_of (db w) "guides") ->
               field_is row "id" (str_of guide "id") = true -> row = guide) ->
  let editing := handleEditGuide guide w in
  rows_of (db (handleSaveEdit (Accepted generated) editing)) "guides"
  = rows_of (db w) "guides"
  /\ (forall l, guide !! "specializations" = Some (VArr l) ->
                Forall trimmedEntry l ->
                ui (editSpecializations (specializationsText (ui editing)) editing)
                = ui editing).
Proof.
  intros Hcopies editing. subst editing. split.
  - unfold handleSaveEdit, handleEditGuide.
    cbn -[pick update_rows editableColumns].
    rewrite rows_of_update_rows.
    rewrite <- (list_fmap_id (rows_of (db w) "guides")) at 2.
    apply list_fmap_ext. intros j row Hin. unfold id.
    destruct (field_is row "id" (str_of guide "id")) eqn:Hid; [|reflexivity].
    apply list_elem_of_lookup_2, list_elem_of_In in Hin.
    rewrite (Hcopies row Hin Hid).
    apply map_eq. intros col. rewrite lookup_union, pick_lookup.
    destruct (decide (col ∈ editableColumns)); destruct (guide !! col); reflexivity.
  - intros l Hl Hall. unfold editSpecializations, specializationsText, handleEditGuide.
    cbn -[parseSpecializations join js]. rewrite Hl.
    rewrite (parse_join l Hall).
    now rewrite insert_id.
Qed.

(** ** The tourist list *)

Lemma or_else_nonempty (a b : jsstring) : b <> [] -> or_else a b <> [].
Proof.
  intros Hb. unfold or_else. destruct (truthy a) eqn:Ha; [|assumption].
  now apply truthy_true.
Qed.

Lemma assignmentMap_guides (rows : list Row) (k : jsstring) (e : MapEntry) :
  assignmentMap rows !! k = Some e -> entryGuide e <> [].
Proof.
  unfold assignmentMap.
  assert (Hgen : forall acc : gmap jsstring MapEntry,
            (forall k e, acc !! k = Some e -> entryGuide e <> []) ->
            forall k e,
              foldl (fun acc assignment =>
                       <[str_of assignment "tourist_id" := entryOf assignment]> acc)
                acc rows !! k = Some e -> entryGuide e <> []).
  { induction rows as [|row rows IH]; intros acc Hacc; [exact Hacc|].
    cbn [foldl]. apply IH. intros k' e'.
    destruct (decide (str_of row "tourist_id" = k')) as [<-|Hne].
    - rewrite lookup_insert_eq. intros [= <-]. cbn.
      apply or_else_nonempty. vm_compute. discriminate.
    - rewrite lookup_insert_ne by assumption. apply Hacc. }
  apply Hgen. intros k' e'. rewrite lookup_empty. discriminate.
Qed.

(** X17.  After the profiles were fetched the tourist list has one entry
    per profile, in the order of the profiles and with their ids, whatever
    the assignment select answered.  No entry has an empty name or
    nationality; an entry without phone has no email either; and a tourist
    shown as assigned or pending always comes with a guide name. *)
Theorem fetchTourists_shape (profilesData : list Row) (assigned : result (list Row))
    (w : World State) :
  let w' := fetchTourists (Data profilesData) assigned w in
  Tourist.id <$> tourists (ui w') = (fun p => str_of p "id") <$> profilesData
  /\ Forall (fun t =>
               Tourist.name t <> []
               /\ Tourist.nationality t <> []
               /\ (Tourist.phone t = [] -> Tourist.email t = [])
               /\ (Tourist.status t <> Tourist.active -> Tourist.assignedGuide t <> []))
       (tourists (ui w')).
Proof.
  cbv zeta.
  assert (Hshape : forall rows,
    Tourist.id <$> formatTourists profilesData rows
    = (fun p => str_of p "id") <$> profilesData
    /\ Forall (fun t =>
                 Tourist.name t <> []
                 /\ Tourist.nationality t <> []
                 /\ (Tourist.phone t = [] -> Tourist.email t = [])
                 /\ (Tourist.status t <> Tourist.active ->
                     Tourist.assignedGuide t <> []))
         (formatTourists profilesData rows)).
  { intros rows. unfold formatTourists. split.
    - rewrite <- list_fmap_compose. reflexivity.
    - apply Forall_fmap, Forall_true. intros profile. unfold compose.
      split; [apply or_else_nonempty; vm_compute; discriminate|].
      split; [apply or_else_nonempty; vm_compute; discriminate|].
      split.
      + unfold formatTourist. cbn [Tourist.phone Tourist.email].
        unfold or_else. destruct (str_of profile "phone_number"); [|discriminate].
        cbn. destruct (str_of profile "contact_info"); [reflexivity|discriminate].
      + rewrite formatTourist_status, formatTourist_assignedGuide.
        destruct (assignmentMap rows !! str_of profile "id") as [e|] eqn:He;
          [|congruence].
        intros _. exact (assignmentMap_guides rows _ e He). }
  destruct assigned as [rows|message]; apply Hshape.
Qed.

(** X18.  The two ways [fetchTourists] can fail.  A failed profile select
    keeps the tourists and the tables as they were and shows one
    destructive toast.  A failed assignment select is not shown to the
    user: it is a console warning, and every tourist is listed as [active]
    and without a guide. *)
Theorem fetchTourists_failures (profilesData : list Row)
    (assigned : result (list Row)) (message : jsstring) (w : World State) :
  (let w' := fetchTourists (Error message) assigned w in
   ui w' = ui w
   /\ db w' = db w
   /\ toasts (trace w')
      = toasts (trace w)
        ++ [errorToast (js "Failed to load tourists. Please try again.")])
  /\ (let w' := fetchTourists (Data profilesData) (Error message) w in
      trace w' = trace w ++ [ConsoleWarn "Could not fetch assignments:" message]
      /\ toasts (trace w') = toasts (trace w)
      /\ List.length (tourists (ui w')) = List.length profilesData
      /\ Forall (fun t => Tourist.status t = Tourist.active
                          /\ Tourist.assignedGuide t = [])
           (tourists (ui w'))).
Proof.
  cbv zeta. split.
  - cbn. rewrite !toasts_app. cbn. rewrite !app_nil_r. repeat split.
  - cbn -[formatTourists]. rewrite toasts_app. cbn -[formatTourists].
    rewrite app_nil_r. split; [reflexivity|]. split; [reflexivity|].
    unfold formatTourists. split; [apply length_fmap|].
    apply Forall_fmap, Forall_true. intros profile. unfold compose.
    rewrite formatTourist_status, formatTourist_assignedGuide.
    change (assignmentMap []) with (∅ : gmap jsstring MapEntry).
    rewrite lookup_empty. split; reflexivity.
Qed.

Lemma find_formatted (m : gmap jsstring MapEntry) (pre post : list Row)
    (profile : Row) :
  (forall p, In p pre -> str_of p "id" <> str_of profile "id") ->
  List.find (fun t => str_eqb (Tourist.id t) (str_of profile "id"))
    (formatTourist m <$> (pre ++ profile :: post))
  = Some (formatTourist m profile).
Proof.
  intros Hpre. induction pre as [|p pre IH]; cbn -[formatTourist].
  - assert (H : str_eqb (Tourist.id (formatTourist m profile)) (str_of profile "id")
                = true) by now apply str_eqb_eq.
    now rewrite H.
  - assert (H : str_eqb (Tourist.id (formatTourist m p)) (str_of profile "id")
                = false) by (apply str_eqb_neq, Hpre; now left).
    rewrite H. apply IH. intros q Hq. apply Hpre. now right.
Qed.

(** X19.  The name shown for a tourist id is never empty.  After a fetch it
    is, for the first profile with that id, the full name of the profile,
    or ['Unnamed Tourist'] when the profile has none; an id no tourist has
    is shown as ['Unknown Tourist']. *)
Theorem getTouristName_after_fetch (assigned : result (list Row))
    (w : World State) :
  (forall (s : State) (touristId : jsstring), getTouristName s touristId <> [])
  /\ (forall (pre post : list Row) (profile : Row),
        (forall p, In p pre -> str_of p "id" <> str_of profile "id") ->
        getTouristName (ui (fetchTourists (Data (pre ++ profile :: post)) assigned w))
          (str_of profile "id")
        = (if truthy (str_of profile "full_name") then str_of profile "full_name"
           else js "Unnamed Tourist"))
  /\ (forall (s : State) (touristId : jsstring),
        (forall t, In t (tourists s) -> Tourist.id t <> touristId) ->
        getTouristName s touristId = js "Unknown Tourist").
Proof.
  split; [|split].
  - intros s touristId. unfold getTouristName.
    apply or_else_nonempty. vm_compute. discriminate.
  - intros pre post profile Hpre. unfold getTouristName.
    assert (Htourists : exists m,
      tourists (ui (fetchTourists (Data (pre ++ profile :: post)) assigned w))
      = formatTourist m <$> (pre ++ profile :: post))
      by (destruct assigned; eexists; reflexivity).
    destruct Htourists as [m ->]. rewrite (find_formatted m pre post profile Hpre).
    cbn -[js]. apply or_else_truthy.
    apply or_else_nonempty. vm_compute. discriminate.
  - intros s touristId Hnone. unfold getTouristName.
    assert (Hfind : List.find (fun t => str_eqb (Tourist.id t) touristId) (tourists s)
                    = None).
    { induction (tourists s) as [|t l IH]; [reflexivity|]. cbn.
      assert (H : str_eqb (Tourist.id t) touristId = false)
        by (apply str_eqb_neq, Hnone; now left).
      rewrite H. apply IH. intros t' Ht'. apply Hnone. now right. }
    rewrite Hfind. reflexivity.
Qed.

(** ** Change events *)

(** X20.  A change event only starts fetchers: no request is issued, no
    toast shown, tables and state untouched.  At least one fetcher is
    started, never the one of the drivers; the tourist fetcher is started
    on every change of guide requests and assignments, on a profile change
    when the new or the old row is a tourist, and not on a change of
    guides. *)
Theorem onChange_refetches {S : Type} (c : Change) (w : World S) :
  let w' := onChange c w in
  db w' = db w
  /\ ui w' = ui w
  /\ requests (trace w') = requests (trace w)
  /\ toasts (trace w') = toasts (trace w)
  /\ exists fs,
       trace w' = trace w ++ (Started <$> fs)
       /\ fs <> []
       /\ ~ In FetchDrivers fs
       /\ (In FetchTourists fs
           <-> match c with
               | GuidesChanged => False
               | ProfilesChanged new old =>
                   isTouristRow new = true \/ isTouristRow old = true
               | _ => True
               end).
Proof.
  cbv zeta. destruct c as [|new old| |]; cbn.
  - rewrite !requests_app, !toasts_app. cbn. rewrite !app_nil_r.
    repeat split. exists [FetchGuideRequests; FetchTourists].
    rewrite <- app_assoc. repeat split; try discriminate; cbn; try tauto.
    intros [H|[H|[]]]; discriminate.
  - destruct (isTouristRow new || isTouristRow old) eqn:Ht; cbn;
      rewrite !requests_app, !toasts_app; cbn; rewrite !app_nil_r; repeat split.
    + exists [FetchTourists; FetchGuideRequests].
      rewrite <- app_assoc. repeat split; try discriminate; cbn.
      * intros [H|[H|[]]]; discriminate.
      * intros _. now apply orb_true_iff.
      * tauto.
    + exists [FetchGuideRequests].
      repeat split; try discriminate; cbn.
      * intros [H|[]]; discriminate.
      * intros [H|[]]; discriminate.
      * intros H. apply orb_true_iff in H. congruence.
  - rewrite !requests_app, !toasts_app. cbn. rewrite !app_nil_r.
    repeat split. exists [FetchTourists; FetchAssignments].
    rewrite <- app_assoc. repeat split; try discriminate; cbn; try tauto.
    intros [H|[H|[]]]; discriminate.
  - rewrite !requests_app, !toasts_app. cbn. rewrite !app_nil_r.
    repeat split. exists [FetchGuides].
    repeat split; try discriminate; cbn; try tauto.
    + intros [H|[]]; discriminate.
    + intros [H|[]]; discriminate.
Qed.

(** ** Tourist sign-up and sign-in: the other outcomes *)

(** X21.  Invalid input stops both handlers at the validation: the result
    is the world of [validateInput], so nothing is sent to the backend,
    the form is not marked as loading, and the one toast of the validation
    is all that happens. *)
Theorem invalid_input_stops (origin : jsstring) (signed : result SignUpData)
    (upserted : outcome) (w : World LoginState) :
  fst (validateInput w) = false ->
  handleSignUp origin signed upserted w = snd (validateInput w)
  /\ handleSignIn signed w = (None, snd (validateInput w))
  /\ requests (trace (handleSignUp origin signed upserted w)) = requests (trace w)
  /\ ui (handleSignUp origin signed upserted w) = ui w
  /\ db (handleSignUp origin signed upserted w) = db w.
Proof.
  intros Hinvalid. unfold handleSignUp, handleSignIn.
  pose proof (validateInput_cases w) as Hv.
  destruct (validateInput w) as [valid w0]. cbn in Hinvalid. subst valid.
  cbn [negb fst snd]. destruct Hv as (Hdb & Hui & _ & Htoast).
  destruct (Htoast eq_refl) as (t & Htrace & _).
  repeat split; try assumption.
  rewrite Htrace, requests_app. cbn. apply app_nil_r.
Qed.

(** X22.  A sign-up with valid input that does not end with a user and a
    session.  When the backend reports an error, the trace is the sign-up
    request, a console error and one destructive toast with the message of
    the error, or the [unableToCreate] text when it has none.  When it
    answers without a user or without a session, the trace is the request
    and the check-your-email toast, and the form goes back to sign-in.  In
    both cases no profile is upserted, the login callback is not called,
    the tables are untouched and the form is no longer loading. *)
Theorem handleSignUp_without_session (origin : jsstring) (signedUp : result SignUpData)
    (upserted : outcome) (w : World LoginState) :
  fst (validateInput w) = true ->
  match signedUp with
  | Data (mkSignUpData (Some _) (Some _)) => False
  | _ => True
  end ->
  let s := ui w in
  let w' := handleSignUp origin signedUp upserted w in
  let signUp :=
    Request (SignUp (identifier s) (password s) (origin ++ js "/")
               (obj [("user_type", VStr (js "tourist"));
                     ("full_name", VStr (trim (fullName s)));
                     ("phone_number", VStr (trim (phoneNumber s)))])) in
  db w' = db w
  /\ loading (ui w') = false
  /\ match signedUp with
     | Error message =>
         trace w'
         = trace w
           ++ [signUp;
               ConsoleError "Error signing up:" message;
               Toasted (mkToast (Tr "signUpFailed")
                          (if truthy message then Lit message
                           else Tr "unableToCreate") true)]
         /\ ui w' = setLoading false s
     | Data _ =>
         trace w'
         = trace w
           ++ [signUp; Toasted (mkToast (Tr "checkEmail") (Tr "confirmEmailMsg") false)]
         /\ ui w' = setLoading false (setIsSignUp false s)
     end.
Proof.
  intros Hvalid Hno s w' signUp. subst w'. unfold handleSignUp.
  rewrite (validateInput_valid w Hvalid). cbn [negb]. fold s.
  destruct signedUp as [[[userId|] [sess|]]|message]; try contradiction;
    cbn -[obj]; rewrite <- ?app_assoc; repeat split.
Qed.

(** X23.  A sign-in with valid input sends the identifier as [email] and
    the password, on the phone tab as on the email tab, and ends with the
    form no longer loading and the tables untouched.  An error gives a
    console error and one destructive toast; a user and a session give the
    success toast and the login callback; an answer with neither error nor
    session gives nothing at all, no toast and no callback. *)
Theorem handleSignIn_outcomes (signedIn : result SignUpData) (w : World LoginState) :
  fst (validateInput w) = true ->
  let s := ui w in
  let '(sent, w') := handleSignIn signedIn w in
  sent = Some (identifier s, password s)
  /\ db w' = db w
  /\ ui w' = setLoading false s
  /\ trace w'
     = trace w
       ++ match signedIn with
          | Error message =>
              [ConsoleError "Error signing in:" message;
               Toasted (mkToast (Tr "signInFailed")
                          (if truthy message then Lit message
                           else Tr "invalidCredentials") true)]
          | Data (mkSignUpData (Some userId) (Some sess)) =>
              [Toasted (mkToast (Tr "loginSuccessful") (Tr "welcomeTourist") false);
               LoginSuccess userId sess]
          | Data _ => []
          end.
Proof.
  intros Hvalid s. unfold handleSignIn.
  rewrite (validateInput_valid w Hvalid). cbn [negb]. fold s.
  destruct signedIn as [[[userId|] [sess|]]|message];
    cbn; rewrite <- ?app_assoc, ?app_nil_r; repeat split.
Qed.

(** X24.  Switching the tab or the mode blanks the password, so the form
    cannot be submitted as it stands: [validateInput] rejects it with the
    fill-all-fields toast.  A tab switch sets the method to the tab and
    keeps the full name, the phone number and the mode; a mode switch keeps
    the identifier and the tab, and switching twice restores the mode but
    not the password, the full name or the phone number. *)
Theorem switching_blanks_the_form (m : Method) (w : World LoginState) :
  let s := ui w in
  let '(tab, switched) := handleTabChange m s in
  let toggled := toggleAuthMode s in
  let rejected (s' : LoginState) :=
    validateInput (mkWorld (db w) s' (trace w))
    = (false,
       mkWorld (db w) s'
         (trace w ++ [Toasted (mkToast (Tr "missingInfo") (Tr "fillAllFields") true)])) in
  tab = m /\ method switched = m
  /\ fullName switched = fullName s /\ phoneNumber switched = phoneNumber s
  /\ isSignUp switched = isSignUp s
  /\ rejected switched
  /\ identifier toggled = identifier s /\ method toggled = method s
  /\ isSignUp toggled = negb (isSignUp s)
  /\ rejected toggled
  /\ isSignUp (toggleAuthMode toggled) = isSignUp s
  /\ password (toggleAuthMode toggled) = []
  /\ fullName (toggleAuthMode toggled) = []
  /\ phoneNumber (toggleAuthMode toggled) = []
  /\ rejected (toggleAuthMode toggled).
Proof.
  cbv zeta. cbn [handleTabChange].
  assert (Hrej : forall s' : LoginState, password s' = [] ->
            validateInput (mkWorld (db w) s' (trace w))
            = (false,
               mkWorld (db w) s'
                 (trace w ++ [Toasted (mkToast (Tr "missingInfo")
                                         (Tr "fillAllFields") true)]))).
  { intros s' Hpw. unfold validateInput, invalid. cbn [ui]. rewrite Hpw.
    change (falsy (trim [])) with true. rewrite orb_true_r. reflexivity. }
  repeat split; try apply Hrej; try reflexivity.
  cbn. apply negb_involutive.
Qed.

(** * The further properties at the sample data *)

Lemma sample_reassigning_mirrors : mirrors Sample.reassigning.
Proof.
  unfold mirrors. cbn -[formatAssignment].
  repeat constructor.
Qed.

Lemma sample_reassigning_keyed :
  keyed (rows_of (db Sample.reassigning) "tour_assignments").
Proof.
  unfold keyed. cbn. repeat constructor; eexists; reflexivity.
Qed.

Lemma handleReassignGuide_keeps_mirror_witness :
  mirrors Sample.reassigning
  /\ mirrors (handleReassignGuide (Accepted ∅) 0 0 0 Sample.reassigning)
  /\ mirrors (handleReassignGuide (Accepted {[ "id" := VStr (js "a9") ]})
                Sample.beforeMidnight Sample.midnight Sample.midnight
                Sample.assigningFirstGuide).
Proof.
  split; [exact sample_reassigning_mirrors|]. split.
  - apply (handleReassignGuide_keeps_mirror (Accepted ∅) 0 0 0 Sample.reassigning).
    + exact sample_reassigning_keyed.
    + exact sample_reassigning_mirrors.
    + repeat split.
  - apply (handleReassignGuide_keeps_mirror _ _ _ _ Sample.assigningFirstGuide).
    + unfold keyed. cbn. repeat constructor; eexists; reflexivity.
    + unfold mirrors. cbn -[formatAssignment]. repeat constructor.
    + repeat split.
Defined.


Lemma handleReassignGuide_once_witness :
  let w' := handleReassignGuide (Accepted ∅) 0 0 0 Sample.reassigning in
  requests (trace (handleReassignGuide (Accepted ∅) 5 5 5 w')) = requests (trace w')
  /\ requests (trace (handleReassignGuide (Accepted ∅) 5 5 5
                        (openTouristReassignmentDialog (js "t2") w')))
     = requests (trace w').
Proof.
  cbv zeta.
  destruct (handleReassignGuide_once ∅ (Accepted ∅) 0 0 0 5 5 5 Sample.reassigning
              eq_refl)
    as [Honce Hreopen].
  split.
  - rewrite Honce. reflexivity.
  - destruct (Hreopen ltac:(vm_compute; discriminate) ltac:(vm_compute; discriminate)
                (js "t2")) as [_ Hasks].
    rewrite Hasks. reflexivity.
Defined.

Lemma handleAssignGuide_refused_witness :
  let w' := handleAssignGuide (Refused []) Returned 0 Sample.assigning in
  ui w' = ui Sample.assigning
  /\ db w' = db Sample.assigning
  /\ toasts (trace w') = [errorToast (js "Failed to create assignment")].
Proof.
  cbv zeta.
  destruct (handleAssignGuide_refused [] Returned 0 Sample.assigning
              ltac:(vm_compute; discriminate) ltac:(vm_compute; discriminate)
              ltac:(vm_compute; discriminate) ltac:(vm_compute; discriminate)
              ltac:(vm_compute; discriminate))
    as (_ & Hui & Hdb & Htoasts).
  split; [exact Hui|]. split; [exact Hdb|exact Htoasts].
Defined.

Lemma handleCreateGuide_validation_witness :
  newGuideEmail (guideForm (ui Sample.creatingGuideWithoutEmail)) = []
  /\ let w' := handleCreateGuide (Accepted ∅) Sample.creatingGuideWithoutEmail in
     requests (trace w') = [] /\ ui w' = ui Sample.creatingGuideWithoutEmail.
Proof.
  split; [reflexivity|]. cbv zeta.
  destruct (handleCreateGuide_validation (Accepted ∅) Sample.creatingGuideWithoutEmail
              (or_intror (or_introl eq_refl)))
    as (_ & Hreq & Hui & _).
  split; [exact Hreq|exact Hui].
Defined.

Lemma handleCreateGuide_outcomes_witness :
  let refused := handleCreateGuide (Refused (js "duplicate key")) Sample.creatingGuide in
  let accepted := handleCreateGuide (Accepted ∅) Sample.creatingGuide in
  guideForm (ui refused) = guideForm (ui Sample.creatingGuide)
  /\ isCreatingGuide (ui refused) = false
  /\ guideForm (ui accepted) = clearedGuideForm
  /\ isCreatingGuide (ui accepted) = false.
Proof.
  cbv zeta.
  pose proof (handleCreateGuide_outcomes (Refused (js "duplicate key"))
                Sample.creatingGuide
                ltac:(vm_compute; discriminate) ltac:(vm_compute; discriminate)
                ltac:(vm_compute; discriminate) ltac:(vm_compute; discriminate)
                ltac:(vm_compute; discriminate)) as Hr.
  pose proof (handleCreateGuide_outcomes (Accepted ∅) Sample.creatingGuide
                ltac:(vm_compute; discriminate) ltac:(vm_compute; discriminate)
                ltac:(vm_compute; discriminate) ltac:(vm_compute; discriminate)
                ltac:(vm_compute; discriminate)) as Ha.
  cbv zeta in Hr, Ha.
  destruct Hr as (Hbusy & Hform & _). destruct Ha as (Hbusy' & Hform' & _).
  split; [exact Hform|]. split; [exact Hbusy|]. split; [exact Hform'|exact Hbusy'].
Defined.

Lemma sample_specializations_trimmed :
  Forall trimmedEntry [js "Desert"; js "Night Tour"].
Proof.
  repeat constructor; try (vm_compute; discriminate);
    intros c [= <-]; reflexivity.
Qed.

Lemma parseSpecializations_join_witness :
  join (js ", ") [js "Desert"; js "Night Tour"] = js "Desert, Night Tour"
  /\ parseSpecializations (js "Desert, Night Tour") = [js "Desert"; js "Night Tour"].
Proof.
  split; [reflexivity|].
  exact (parseSpecializations_join [js "Desert"; js "Night Tour"]
           sample_specializations_trimmed).
Defined.

Lemma handleSaveEdit_editable_columns_witness :
  let w' := handleSaveEdit (Accepted ∅) Sample.renamingAli in
  rows_of (db Sample.renamingAli) "guides" !! 0%nat = Some Sample.guideAli
  /\ exists ali',
       rows_of (db w') "guides" !! 0%nat = Some ali'
       /\ ali' !! "name" = Some (VStr (js "Ali Al-Anazi"))
       /\ ali' !! "status" = Some (VStr (js "offline"))
       /\ ali' !! "rating" = Some (VNum 5)
       /\ ali' !! "password" = Some (VStr (js "pw-01")).
Proof.
  cbv zeta. split; [reflexivity|].
  set (draft := <["status" := VStr (js "offline")]>
                  (<["name" := VStr (js "Ali Al-Anazi")]> Sample.guideAli)).
  destruct (handleSaveEdit_editable_columns ∅ draft Sample.renamingAli eq_refl)
    as (_ & _ & Hrows & _).
  destruct (Hrows 0%nat Sample.guideAli eq_refl)
    as (ali' & Hali' & _ & Hkeep & Hset).
  exists ali'. split; [exact Hali'|].
  assert (Hin : forall col, In col editableColumns -> col ∈ editableColumns)
    by (intros col; apply list_elem_of_In).
  assert (Hout : forall col, ~ In col editableColumns -> col ∉ editableColumns)
    by (intros col H H'; apply H; now apply list_elem_of_In).
  split; [apply (Hset eq_refl); [apply Hin; cbn; tauto|reflexivity]|].
  split; [apply (Hset eq_refl); [apply Hin; cbn; tauto|reflexivity]|].
  split.
  - rewrite Hkeep; [reflexivity|]. apply Hout. cbn. intuition discriminate.
  - rewrite Hkeep; [reflexivity|]. apply Hout. cbn. intuition discriminate.
Defined.

Lemma handleEditGuide_then_save_witness :
  rows_of (db (handleSaveEdit (Accepted ∅)
                 (handleEditGuide Sample.guideAli Sample.roster))) "guides"
  = [Sample.guideAli; Sample.guideBadr]
  /\ specializationsText (ui (handleEditGuide Sample.guideAli Sample.roster))
     = js "Desert, Night Tour".
Proof.
  assert (Hcopies : forall row,
            In row (rows_of (db Sample.roster) "guides") ->
            field_is row "id" (str_of Sample.guideAli "id") = true ->
            row = Sample.guideAli).
  { intros row [<-|[<-|[]]] Hid; [reflexivity|]. vm_compute in Hid. discriminate. }
  destruct (handleEditGuide_then_save ∅ Sample.guideAli Sample.roster Hcopies)
    as [Hsame _].
  split; [exact Hsame|reflexivity].
Defined.

Lemma invalid_input_stops_witness :
  fst (validateInput Sample.mistypedSignUp) = false
  /\ trace (handleSignUp (js "https://alula.example")
              (Data (mkSignUpData (Some (js "u1")) (Some (js "session-1"))))
              Returned Sample.mistypedSignUp)
     = [Toasted (mkToast (Tr "passwordsNoMatch") (Tr "passwordsMatchMsg") true)].
Proof.
  assert (Hinvalid : fst (validateInput Sample.mistypedSignUp) = false)
    by (vm_compute; reflexivity).
  split; [exact Hinvalid|].
  destruct (invalid_input_stops (js "https://alula.example")
              (Data (mkSignUpData (Some (js "u1")) (Some (js "session-1"))))
              Returned Sample.mistypedSignUp Hinvalid) as (Hstop & _).
  rewrite Hstop. vm_compute. reflexivity.
Defined.

Lemma handleSignUp_without_session_witness :
  let w' := handleSignUp (js "https://alula.example")
              (Data (mkSignUpData (Some (js "u1")) None)) Returned
              Sample.signingUp in
  fst (validateInput Sample.signingUp) = true
  /\ toasts (trace w') = [mkToast (Tr "checkEmail") (Tr "confirmEmailMsg") false]
  /\ isSignUp (ui w') = false
  /\ loading (ui w') = false
  /\ db w' = db Sample.signingUp.
Proof.
  cbv zeta.
  assert (Hvalid : fst (validateInput Sample.signingUp) = true)
    by (vm_compute; reflexivity).
  destruct (handleSignUp_without_session (js "https://alula.example")
              (Data (mkSignUpData (Some (js "u1")) None)) Returned
              Sample.signingUp Hvalid I)
    as (Hdb & Hloading & Htrace & Hui).
  split; [exact Hvalid|].
  split; [rewrite Htrace; reflexivity|].
  split; [rewrite Hui; reflexivity|].
  split; [exact Hloading|exact Hdb].
Defined.

Lemma handleSignIn_outcomes_witness :
  fst (validateInput Sample.signingInByPhone) = true
  /\ fst (handleSignIn (Data (mkSignUpData None None)) Sample.signingInByPhone)
     = Some (js "+966 50 000 0000", js "secret1")
  /\ trace (snd (handleSignIn (Data (mkSignUpData None None))
                   Sample.signingInByPhone)) = [].
Proof.
  assert (Hvalid : fst (validateInput Sample.signingInByPhone) = true)
    by (vm_compute; reflexivity).
  pose proof (handleSignIn_outcomes (Data (mkSignUpData None None))
                Sample.signingInByPhone Hvalid) as H.
  cbv zeta in H.
  destruct (handleSignIn (Data (mkSignUpData None None)) Sample.signingInByPhone)
    as [sent w'].
  destruct H as (Hsent & _ & _ & Htrace).
  split; [exact Hvalid|]. split; [exact Hsent|exact Htrace].
Defined.

(** ** The assignment reconciler: refusal *)

(** X25.  With a guide and a tourist selected and the end date in the
    range of dates, a write the store refuses changes nothing but the
    trace: one request, a console error and one destructive toast with the
    message of the error, or ['Failed to assign guide'] when it has none.
    Tables, local assignments and the dialog, still open on the same
    choice, are as before and no fetcher is started, so confirming again
    at the same readings of the clock issues the same request again. *)
Theorem handleReassignGuide_refusal (message message' : jsstring)
    (today now later later' : Z) (w : World State) :
  reassignmentNewGuideId (reassignment (ui w)) <> [] ->
  reassignmentTouristId (reassignment (ui w)) <> [] ->
  validTime (now + 7 * 24 * 60 * 60 * 1000) = true ->
  let w' := handleReassignGuide (Refused message) today now later w in
  ui w' = ui w
  /\ db w' = db w
  /\ exists c,
       trace w'
       = trace w
         ++ [Request c;
             ConsoleError "Error reassigning guide:" message;
             Toasted (errorToast (if truthy message then message
                                  else js "Failed to assign guide"))]
       /\ requests (trace (handleReassignGuide (Refused message') today now later' w'))
          = requests (trace w) ++ [c; c].
Proof.
  intros Hg Ht Hvalid w'. subst w'. unfold handleReassignGuide.
  rewrite (reassign_guard_passes _ Hg Ht), (isoDayOf_valid _ Hvalid).
  destruct (List.find _ (assignments (ui w))) as [existing|] eqn:Hfind.
  - cbn -[obj]. rewrite (reassign_guard_passes _ Hg Ht), Hfind.
    cbn -[obj]. rewrite !requests_app. cbn -[obj]. rewrite !app_nil_r.
    split; [reflexivity|]. split; [reflexivity|].
    eexists. split; [now rewrite <- !app_assoc|]. now rewrite <- app_assoc.
  - cbn -[obj isoDay dateString]. rewrite (reassign_guard_passes _ Hg Ht), Hfind.
    cbn -[obj isoDay dateString]. rewrite !requests_app.
    cbn -[obj isoDay dateString]. rewrite !app_nil_r.
    split; [reflexivity|]. split; [reflexivity|].
    eexists. split; [now rewrite <- !app_assoc|]. now rewrite <- app_assoc.
Qed.

Lemma handleReassignGuide_refusal_witness :
  let w' := handleReassignGuide (Refused (js "permission denied")) 0 0 0
              Sample.reassigning in
  ui w' = ui Sample.reassigning
  /\ db w' = db Sample.reassigning
  /\ toasts (trace w') = [errorToast (js "permission denied")].
Proof.
  cbv zeta.
  destruct (handleReassignGuide_refusal (js "permission denied") [] 0 0 0 0
              Sample.reassigning
              ltac:(vm_compute; discriminate) ltac:(vm_compute; discriminate)
              eq_refl)
    as (Hui & Hdb & c & Htrace & _).
  split; [exact Hui|]. split; [exact Hdb|].
  rewrite Htrace. reflexivity.
Defined.

(** ** The dates of a default assignment *)

Lemma civil_civilOfEra (day : Z) :
  civil day
  = civilOfEra ((day + 719468) / 146097) ((day + 719468) mod 146097).
Proof.
  unfold civil, civilOfEra. cbv zeta.
  replace (day + 719468 - (day + 719468) / 146097 * 146097)
    with ((day + 719468) mod 146097)
    by (rewrite Z.mod_eq by lia; lia).
  reflexivity.
Qed.

Lemma civilOfEra_shift (era doe : Z) :
  civilOfEra era doe
  = let '(y, m, d) := civilOfEra 0 doe in (y + era * 400, m, d).
Proof.
  unfold civilOfEra. cbv zeta.
  destruct (_ <=? 2); f_equal; f_equal; lia.
Qed.

Lemma allFrom_spec (count : nat) (n : Z) (f : Z -> bool) :
  allFrom count n f = true ->
  forall i, n <= i < n + Z.of_nat count -> f i = true.
Proof.
  revert n. induction count as [|k IH]; intros n Hall i Hi; [lia|].
  cbn [allFrom] in Hall. apply andb_true_iff in Hall as [Hn Hrest].
  destruct (Z.eq_dec i n) as [->|Hne]; [assumption|].
  apply (IH (n + 1)); [assumption|lia].
Qed.

Lemma civilInRange_era : allFrom (Z.to_nat 146097) 0 civilInRange = true.
Proof. vm_compute. reflexivity. Qed.

Lemma civilInRange_all (doe : Z) : 0 <= doe < 146097 -> civilInRange doe = true.
Proof.
  intros H. apply (allFrom_spec _ _ _ civilInRange_era). lia.
Qed.

Lemma length_digits (width : nat) (n : Z) : List.length (digits width n) = width.
Proof.
  revert n. induction width as [|k IH]; intros n; [reflexivity|].
  cbn [digits]. rewrite length_app, IH. cbn. lia.
Qed.

(** X26.  From 1970 to the end of the year 9999 the date the reconciler
    writes is a well-formed [YYYY-MM-DD]: ten code units, a four-digit
    year between 1970 and 9999, a month between 01 and 12 and a day
    between 01 and 31. *)
Theorem isoDay_wellformed (t : Z) :
  0 <= t < 253402300800000 ->
  List.length (isoDay t) = 10%nat
  /\ exists y m d,
       isoDay t = digits 4 y ++ js "-" ++ digits 2 m ++ js "-" ++ digits 2 d
       /\ 1970 <= y <= 9999 /\ 1 <= m <= 12 /\ 1 <= d <= 31.
Proof.
  intros Ht. rewrite isoDay_dateString. unfold dateString.
  assert (Hday : 0 <= Day t < 2932897).
  { unfold Day, msPerDay. split.
    - apply Z.div_pos; lia.
    - apply Z.div_lt_upper_bound; lia. }
  rewrite civil_civilOfEra, civilOfEra_shift.
  set (z := Day t + 719468).
  assert (Hdoe : 0 <= z mod 146097 < 146097) by (apply Z.mod_pos_bound; lia).
  assert (Hz : z = 146097 * (z / 146097) + z mod 146097)
    by (apply Z.div_mod; lia).
  pose proof (civilInRange_all _ Hdoe) as Hr. unfold civilInRange in Hr.
  destruct (civilOfEra 0 (z mod 146097)) as [[y m] d].
  repeat (apply andb_true_iff in Hr as [Hr ?]).
  assert (Hera : 4 <= z / 146097 <= 24) by (subst z; lia).
  assert (Hy : 1970 <= y + z / 146097 * 400 <= 9999).
  { split.
    - destruct (Z.eq_dec (z / 146097) 4) as [He|He].
      + assert (135080 <= z mod 146097) by (subst z; lia).
        assert (370 <= y) by lia. lia.
      + lia.
    - destruct (Z.eq_dec (z / 146097) 24) as [He|He].
      + assert (z mod 146097 < 146037) by (subst z; lia).
        assert (y <= 399) by lia. lia.
      + lia. }
  unfold yearString.
  assert (Hyr : (0 <=? y + z / 146097 * 400) && (y + z / 146097 * 400 <=? 9999)
                = true) by lia.
  rewrite Hyr. split.
  - rewrite !length_app, !length_digits. reflexivity.
  - exists (y + z / 146097 * 400), m, d. repeat split; lia.
Qed.

Lemma isoDay_wellformed_witness :
  0 <= Sample.lateFebruary < 253402300800000
  /\ isoDay Sample.lateFebruary = js "2024-02-26"
  /\ List.length (isoDay Sample.lateFebruary) = 10%nat.
Proof.
  assert (H : 0 <= Sample.lateFebruary < 253402300800000)
    by (unfold Sample.lateFebruary; lia).
  split; [exact H|]. split; [reflexivity|].
  exact (proj1 (isoDay_wellformed Sample.lateFebruary H)).
Defined.

(** ** The assignment reconciler: a date out of range *)

(** X28.  When the tourist has no local assignment and the day seven days
    after [Date.now()] is no date, building the row throws: nothing is
    sent, tables, local assignments and dialog are as before, and the
    RangeError is reported like a store error, in the console and in one
    destructive toast. *)
Theorem handleReassignGuide_out_of_range (write : reply) (today now later : Z)
    (w : World State) :
  reassignmentNewGuideId (reassignment (ui w)) <> [] ->
  reassignmentTouristId (reassignment (ui w)) <> [] ->
  List.find (fun a => str_eqb (Assignment.touristId a)
                        (reassignmentTouristId (reassignment (ui w))))
    (assignments (ui w)) = None ->
  maxTime < now + 7 * 24 * 60 * 60 * 1000 ->
  let w' := handleReassignGuide write today now later w in
  ui w' = ui w
  /\ db w' = db w
  /\ requests (trace w') = requests (trace w)
  /\ trace w'
     = trace w
       ++ [ConsoleError "Error reassigning guide:" invalidTimeValue;
           Toasted (errorToast invalidTimeValue)].
Proof.
  intros Hg Ht Hfind Hrange w'. subst w'. unfold handleReassignGuide.
  rewrite (reassign_guard_passes _ Hg Ht), Hfind.
  rewrite isoDayOf_invalid
    by (unfold validTime; apply andb_false_iff; right; apply Z.leb_gt; exact Hrange).
  cbn. rewrite !requests_app. cbn. rewrite !app_nil_r, <- app_assoc.
  repeat split.
Qed.

Lemma handleReassignGuide_out_of_range_witness :
  let w' := handleReassignGuide (Accepted ∅) maxTime maxTime maxTime
              Sample.assigningFirstGuide in
  requests (trace w') = []
  /\ toasts (trace w') = [errorToast (js "Invalid time value")]
  /\ assignments (ui w') = assignments (ui Sample.assigningFirstGuide).
Proof.
  cbv zeta.
  destruct (handleReassignGuide_out_of_range (Accepted ∅) maxTime maxTime maxTime
              Sample.assigningFirstGuide
              ltac:(vm_compute; discriminate) ltac:(vm_compute; discriminate)
              eq_refl ltac:(unfold maxTime; lia))
    as (Hui & _ & Hreq & Htrace).
  split; [exact Hreq|]. split; [rewrite Htrace; reflexivity|].
  now rewrite Hui.
Defined.
